(** * Telegram media downloader bot: the download workflow of [main.py]

    A shallow embedding of [detect_platform], [get_quality_keyboard] and
    [handle_quality_selection], with the chat transport, the Base44
    bookkeeping client, yt-dlp and the local file system as explicit
    collaborators, and the properties of the download workflow proved
    over it. *)

From Stdlib Require Import ZArith String Ascii List Bool Lia.
From stdpp Require Import base option gmap strings pretty.

Import ListNotations.
Local Open Scope Z_scope.

(** ** Python strings

    Strings are sequences of bytes, which are the characters of ASCII
    text; the texts of the bot are kept byte for byte. *)

Module PyStr.

(** [s.split(sep)] for a one-character separator. *)
Fixpoint split (sep : ascii) (s : string) : list string :=
  match s with
  | EmptyString => [EmptyString]
  | String c s' =>
      if Ascii.eqb c sep then EmptyString :: split sep s'
      else match split sep s' with
           | [] => [String c EmptyString]
           | w :: ws => String c w :: ws
           end
  end.

(** [s[:n]]. *)
Fixpoint take (n : nat) (s : string) : string :=
  match n, s with
  | S n', String c s' => String c (take n' s')
  | _, _ => EmptyString
  end.

(** [sep in s] for a one-character separator. *)
Fixpoint mem (sep : ascii) (s : string) : bool :=
  match s with
  | EmptyString => false
  | String c s' => Ascii.eqb c sep || mem sep s'
  end.

(** [s.rsplit(sep, 1)[0]]: everything before the last separator, the
    whole string when there is none. *)
Fixpoint rsplit1_head (sep : ascii) (s : string) : string :=
  match s with
  | EmptyString => EmptyString
  | String c s' =>
      if Ascii.eqb c sep && negb (mem sep s') then EmptyString
      else String c (rsplit1_head sep s')
  end.

Definition is_upper (c : ascii) : bool :=
  (65 <=? nat_of_ascii c)%nat && (nat_of_ascii c <=? 90)%nat.

Definition lower_char (c : ascii) : ascii :=
  if is_upper c then ascii_of_nat (nat_of_ascii c + 32) else c.

(** [s.lower()] on ASCII letters. *)
Fixpoint lower (s : string) : string :=
  match s with
  | EmptyString => EmptyString
  | String c s' => String (lower_char c) (lower s')
  end.

Definition is_lower (c : ascii) : bool :=
  (97 <=? nat_of_ascii c)%nat && (nat_of_ascii c <=? 122)%nat.

Definition upper_char (c : ascii) : ascii :=
  if is_lower c then ascii_of_nat (nat_of_ascii c - 32) else c.

(** [s.upper()] on ASCII letters. *)
Fixpoint upper (s : string) : string :=
  match s with
  | EmptyString => EmptyString
  | String c s' => String (upper_char c) (upper s')
  end.

End PyStr.

(** ** Regular expressions of the platform table

    The patterns of [PLATFORM_PATTERNS] are literals (with escaped dots)
    and alternations of literals; [re.search(pattern, url, re.IGNORECASE)]
    looks for an occurrence anywhere in the URL, comparing letters
    without regard to ASCII case. The few non-ASCII characters that
    Python's case folding also equates with ASCII letters are not
    modelled. *)

Module Re.

Inductive regex : Type :=
| Lit (s : string)
| Alt (r1 r2 : regex).

Definition eqb_icase (a b : ascii) : bool :=
  Ascii.eqb (PyStr.lower_char a) (PyStr.lower_char b).

(** The literal [p] matches at the start of [s]. *)
Fixpoint match_here (p s : string) : bool :=
  match p, s with
  | EmptyString, _ => true
  | String _ _, EmptyString => false
  | String a p', String b s' => eqb_icase a b && match_here p' s'
  end.

(** The literal [p] matches somewhere in [s]. *)
Fixpoint find (p s : string) : bool :=
  match_here p s ||
  match s with
  | EmptyString => false
  | String _ s' => find p s'
  end.

Fixpoint search (r : regex) (s : string) : bool :=
  match r with
  | Lit p => find p s
  | Alt r1 r2 => search r1 s || search r2 s
  end.

End Re.

(** ** Configuration constants *)

Definition FREE_MAX_SIZE : Z := 1 * 1024 * 1024 * 1024.
Definition PREMIUM_MAX_SIZE : Z := 5 * 1024 * 1024 * 1024.

(** The platform table, in the insertion order of the dict literal. *)
Definition PLATFORM_PATTERNS : list (string * Re.regex) :=
  [ ("youtube", Re.Alt (Re.Lit "youtube.com") (Re.Lit "youtu.be"));
    ("instagram", Re.Lit "instagram.com");
    ("tiktok", Re.Lit "tiktok.com");
    ("twitter", Re.Alt (Re.Lit "twitter.com") (Re.Lit "x.com"));
    ("facebook", Re.Lit "facebook.com");
    ("vimeo", Re.Lit "vimeo.com");
    ("soundcloud", Re.Lit "soundcloud.com");
    ("spotify", Re.Lit "spotify.com") ].

Definition QUALITY_OPTIONS : list string :=
  ["180p"; "240p"; "360p"; "480p"; "720p"; "1080p"; "1440p"; "4k"; "best"].

(** ** [detect_platform] *)

(** The [for platform, pattern in ....items()] loop over a table. *)
Fixpoint detect_in (table : list (string * Re.regex)) (url : string) : string :=
  match table with
  | [] => "other"
  | (platform, pattern) :: rest =>
      if Re.search pattern url then platform else detect_in rest url
  end.

Definition detect_platform (url : string) : string :=
  detect_in PLATFORM_PATTERNS url.

(** ** Python values

    The JSON values exchanged with the dashboard and found in yt-dlp's
    info dict: [None], booleans, integers and strings. A dict is a finite
    map from string keys. *)

Inductive pyval : Type :=
| PNone
| PBool (b : bool)
| PInt (n : Z)
| PStr (s : string).

Abbreviation dict := (gmap string pyval).

(** Truth value of a Python object, as tested by [if x], [not x], [x or y]. *)
Definition truthy (v : pyval) : bool :=
  match v with
  | PNone => false
  | PBool b => b
  | PInt n => negb (n =? 0)
  | PStr s => negb (String.eqb s "")
  end.

(** [str(v)], as interpolated by an f-string. *)
Definition py_str (v : pyval) : string :=
  match v with
  | PNone => "None"
  | PBool true => "True"
  | PBool false => "False"
  | PInt n => pretty n
  | PStr s => s
  end.

(** [d.get(key, default)]. *)
Definition dict_get (d : dict) (key : string) (default : pyval) : pyval :=
  match d !! key with
  | Some v => v
  | None => default
  end.

(** A dict literal [{k1: v1, ...}] with distinct keys. *)
Definition mkdict (items : list (string * pyval)) : dict := list_to_map items.

(** Truth value of a dict: empty dicts are false. *)
Definition dict_truthy (d : dict) : bool := negb (bool_decide (d = ∅)).

(** [x or y]. *)
Definition py_or (x y : pyval) : pyval := if truthy x then x else y.

(** ** Exceptions

    Only subclasses of [Exception] are modelled. [Error msg] stands for
    any exception raised by a collaborator (network, Telegram, yt-dlp),
    with [str(e) = msg]. *)

Inductive exn : Type :=
| KeyError (key : string)
| IndexError
| TypeError (msg : string)
| FileNotFoundError (path : string)
| Error (msg : string).

(** The double quote and the backslash. *)
Definition DQ : string := String (ascii_of_nat 34%nat) EmptyString.
Definition BACKSLASH : ascii := ascii_of_nat 92%nat.

Definition hex_digit (n : nat) : ascii :=
  default "0"%char (String.get n "0123456789abcdef").

(** One character of [repr(s)]: the quote in use and the backslash are
    escaped, and so are the control characters. Bytes above 127 are kept:
    they encode characters, which [repr] keeps when they are printable. *)
Definition repr_char (quote c : ascii) : string :=
  let n := nat_of_ascii c in
  if Ascii.eqb c quote || Ascii.eqb c BACKSLASH
  then String BACKSLASH (String c EmptyString)
  else if (n =? 9)%nat then String BACKSLASH "t"
  else if (n =? 10)%nat then String BACKSLASH "n"
  else if (n =? 13)%nat then String BACKSLASH "r"
  else if (n <? 32)%nat || (n =? 127)%nat
  then String BACKSLASH
         (String "x" (String (hex_digit (n / 16))
                        (String (hex_digit (n mod 16)) EmptyString)))
  else String c EmptyString.

Fixpoint repr_body (quote : ascii) (s : string) : string :=
  match s with
  | EmptyString => EmptyString
  | String c s' => repr_char quote c +:+ repr_body quote s'
  end.

(** [repr(s)]: between single quotes, or between double quotes when [s]
    holds a single quote and no double quote. *)
Definition py_repr (s : string) : string :=
  let quote :=
    if PyStr.mem "'" s && negb (PyStr.mem (ascii_of_nat 34%nat) s)
    then ascii_of_nat 34%nat
    else "'"%char in
  String quote (repr_body quote s +:+ String quote EmptyString).

(** [str(e)]. For the built-in exceptions this is the interpreter's text:
    [repr(key)] for a [KeyError], and the message of [errno] 2 followed by
    [repr(path)] for a [FileNotFoundError]. *)
Definition exn_str (e : exn) : string :=
  match e with
  | KeyError k => py_repr k
  | IndexError => "list index out of range"
  | TypeError msg => msg
  | FileNotFoundError p => "[Errno 2] No such file or directory: " +:+ py_repr p
  | Error msg => msg
  end.

Abbreviation result A := (exn + A)%type.

(** [x + n] for an integer [n]; booleans are integers, [None] and strings
    raise [TypeError]. *)
Definition py_add_int (x : pyval) (n : Z) : result pyval :=
  match x with
  | PInt m => inr (PInt (m + n))
  | PBool b => inr (PInt (Z.b2z b + n))
  | PNone =>
      inl (TypeError "unsupported operand type(s) for +: 'NoneType' and 'int'")
  | PStr _ =>
      inl (TypeError
             ("can only concatenate str (not " +:+ DQ +:+ "int" +:+ DQ +:+ ") to str"))
  end.

(** [l[i]]. *)
Definition py_index (l : list string) (i : nat) : result string :=
  match nth_error l i with
  | Some x => inr x
  | None => inl IndexError
  end.

(** ** Quality selection

    [QUALITY_OPTIONS] plus the audio option is the vocabulary of the
    keyboard; the branch on [quality] at the head of the [try] block turns
    the chosen preset into a selection, from which the yt-dlp options are
    built. *)

Inductive QualitySelection : Type :=
| VideoHeightCap (height : Z)
| BestAvailable
| AudioOnly.

(** The dict literal subscripted by [quality]. *)
Definition HEIGHTS : list (string * option Z) :=
  [ ("180p", Some 180); ("240p", Some 240); ("360p", Some 360);
    ("480p", Some 480); ("720p", Some 720); ("1080p", Some 1080);
    ("1440p", Some 1440); ("4k", Some 2160); ("best", None) ].

Fixpoint assoc {A} (key : string) (l : list (string * A)) : option A :=
  match l with
  | [] => None
  | (k, v) :: rest => if String.eqb k key then Some v else assoc key rest
  end.

(** [{...}[quality]]: a missing key raises [KeyError]. *)
Definition lookup_height (quality : string) : result (option Z) :=
  match assoc quality HEIGHTS with
  | Some h => inr h
  | None => inl (KeyError quality)
  end.

(** [if quality == "audio": ... else: height = {...}[quality]; ... if height
    else ...]. *)
Definition decode (quality : string) : result QualitySelection :=
  if String.eqb quality "audio" then inr AudioOnly
  else match lookup_height quality with
       | inl e => inl e
       | inr (Some h) => inr (if h =? 0 then BestAvailable else VideoHeightCap h)
       | inr None => inr BestAvailable
       end.

Record postprocessor : Type := {
  key : string;
  preferredcodec : string;
  preferredquality : string
}.

Record ydl_opts : Type := {
  format : string;
  postprocessors : list postprocessor;
  merge_output_format : option string;
  outtmpl : string
}.

Definition outtmpl_for (user_id : Z) : string :=
  "/tmp/" +:+ pretty user_id +:+ "_%(title)s.%(ext)s".

Definition format_str (height : Z) : string :=
  "bestvideo[height<=" +:+ pretty height +:+ "]+bestaudio/best[height<="
    +:+ pretty height +:+ "]".

(** The [ydl_opts] dict built for a selection. *)
Definition opts_for (user_id : Z) (sel : QualitySelection) : ydl_opts :=
  match sel with
  | AudioOnly =>
      {| format := "bestaudio/best";
         postprocessors :=
           [ {| key := "FFmpegExtractAudio";
                preferredcodec := "mp3";
                preferredquality := "192" |} ];
         merge_output_format := None;
         outtmpl := outtmpl_for user_id |}
  | VideoHeightCap h =>
      {| format := format_str h;
         postprocessors := [];
         merge_output_format := Some "mp4";
         outtmpl := outtmpl_for user_id |}
  | BestAvailable =>
      {| format := "bestvideo+bestaudio/best";
         postprocessors := [];
         merge_output_format := Some "mp4";
         outtmpl := outtmpl_for user_id |}
  end.

(** ** [get_quality_keyboard] *)

Record InlineKeyboardButton : Type := {
  text : string;
  callback_data : string
}.

(** [f"quality:{quality}:{url[:50]}"]. *)
Definition callback_token (quality url : string) : string :=
  "quality:" +:+ quality +:+ ":" +:+ PyStr.take 50 url.

(** The loop filling rows of three buttons; returns the keyboard built so
    far and the row being filled. *)
Fixpoint keyboard_rows (url : string) (options : list string)
    (keyboard : list (list InlineKeyboardButton)) (row : list InlineKeyboardButton)
  : list (list InlineKeyboardButton) * list InlineKeyboardButton :=
  match options with
  | [] => (keyboard, row)
  | quality :: rest =>
      let row := row ++ [ {| text := quality; callback_data := callback_token quality url |} ] in
      if (length row =? 3)%nat then keyboard_rows url rest (keyboard ++ [row]) []
      else keyboard_rows url rest keyboard row
  end.

Definition get_quality_keyboard (url : string) : list (list InlineKeyboardButton) :=
  let '(keyboard, row) := keyboard_rows url QUALITY_OPTIONS [] [] in
  let keyboard := match row with [] => keyboard | _ => keyboard ++ [row] end in
  keyboard ++ [ [ {| text := "üéµ Audio Only (MP3)";
                     callback_data := callback_token "audio" url |} ] ].

(** [query.data.split(":")[1]]. *)
Definition selected_quality (data : string) : result string :=
  py_index (PyStr.split ":" data) 1.

(** Decoding a callback token: the preset field, then the selection. *)
Definition decode_token (data : string) : result QualitySelection :=
  match selected_quality data with
  | inl e => inl e
  | inr quality => decode quality
  end.

(** ** Collaborators and the world

    The handler talks to the chat transport ([query], [status_msg],
    [effective_chat]), to the Base44 client, to yt-dlp and to the local
    file system. The file system is state: a finite map from paths to
    byte sizes. Every other call is recorded in a trace, together with
    whether it returned or raised. *)

(** The bytes read from a file, identified by its path and size. *)
Inductive file_bytes : Type :=
| FileBytes (path : string) (size : Z).

Inductive call : Type :=
| QueryAnswer
| QueryEditMessageText (text : string)
| GetUser (telegram_id : string)
| LogDownload (download_data : dict)
| UpdateDownload (download_id : pyval) (data : dict)
| SyncUser (user_data : dict)
| GetSettings
| StatusEditText (text : string)
| ExtractInfo (url : string) (opts : ydl_opts)
| SendAudio (audio : file_bytes) (title : pyval) (filename caption : string)
| SendVideo (video : file_bytes) (filename caption : string)
| LoggerError (msg : string).

Inductive event : Type :=
| Returned (c : call)
| Raised (c : call) (e : exn).

(** What the block [ydl.extract_info(url, download=True)];
    [ydl.prepare_filename(info)] does: it works on the local files and
    either raises or returns the info dict and the prepared file name. In
    both cases it leaves the files in some state: a failed extraction may
    have written part of a download, a successful one may have written
    and removed several files. *)
Inductive extraction : Type :=
| ExtractionError (e : exn) (files_after : gmap string Z)
| ExtractedMedia (info : dict) (prepared_filename : string)
    (files_after : gmap string Z).

(** The responses of the collaborators; [None] in an [option exn] means
    that the call returns. [extract_info url opts fs] is what the
    extraction does when the local files are [fs]. [format_gb digits n] is
    the text of
    [f"{n / (1024**3):.{digits}f}"], whose floating-point rounding is left
    to the interpreter. *)
Record Env : Type := {
  query_answer : option exn;
  query_edit_message_text : string -> option exn;
  get_user : string -> result (option dict);
  log_download : dict -> result dict;
  update_download : pyval -> dict -> option exn;
  sync_user : dict -> option exn;
  get_settings : result dict;
  status_edit_text : string -> option exn;
  extract_info : string -> ydl_opts -> gmap string Z -> extraction;
  send_audio : file_bytes -> pyval -> string -> string -> option exn;
  send_video : file_bytes -> string -> string -> option exn;
  format_gb : nat -> Z -> string
}.

Record world : Type := {
  files : gmap string Z;
  trace : list event
}.

(** ** A state and exception monad *)

Definition M (A : Type) : Type := world -> result A * world.

Definition ret {A} (a : A) : M A := fun w => (inr a, w).

Definition raise {A} (e : exn) : M A := fun w => (inl e, w).

Definition bind {A B} (m : M A) (k : A -> M B) : M B :=
  fun w =>
    match m w with
    | (inl e, w') => (inl e, w')
    | (inr a, w') => k a w'
    end.

Notation "x <- c1 ;; c2" := (bind c1 (fun x => c2))
  (at level 100, c1 at next level, right associativity).
Notation "c1 ;; c2" := (bind c1 (fun _ => c2))
  (at level 100, right associativity).

(** [try: body except Exception as e: handler(e)]. *)
Definition try_except {A} (body : M A) (handler : exn -> M A) : M A :=
  fun w =>
    match body w with
    | (inl e, w') => handler e w'
    | (inr a, w') => (inr a, w')
    end.

Definition lift {A} (r : result A) : M A :=
  match r with
  | inl e => raise e
  | inr a => ret a
  end.

Definition log (ev : event) (w : world) : world :=
  {| files := files w; trace := trace w ++ [ev] |}.

(** A call that returns nothing of interest. *)
Definition perform (c : call) (response : option exn) : M unit :=
  fun w =>
    match response with
    | None => (inr tt, log (Returned c) w)
    | Some e => (inl e, log (Raised c e) w)
    end.

(** A call whose result is used. *)
Definition ask {A} (c : call) (response : result A) : M A :=
  fun w =>
    match response with
    | inr a => (inr a, log (Returned c) w)
    | inl e => (inl e, log (Raised c e) w)
    end.

(** *** The local file system *)

Definition fs_size (fs : gmap string Z) (path : string) : option Z := fs !! path.
Definition fs_write (path : string) (size : Z) (fs : gmap string Z) : gmap string Z :=
  <[path := size]> fs.
Definition fs_remove (path : string) (fs : gmap string Z) : gmap string Z :=
  delete path fs.

(** [os.path.getsize(filename)]. *)
Definition os_path_getsize (filename : string) : M Z :=
  fun w =>
    match fs_size (files w) filename with
    | Some size => (inr size, w)
    | None => (inl (FileNotFoundError filename), w)
    end.

(** [os.remove(filename)]. *)
Definition os_remove (filename : string) : M unit :=
  fun w =>
    match fs_size (files w) filename with
    | Some _ => (inr tt, {| files := fs_remove filename (files w); trace := trace w |})
    | None => (inl (FileNotFoundError filename), w)
    end.

(** [async with aiofiles.open(filename, "rb") as f: await f.read()]. *)
Definition read_file (filename : string) : M file_bytes :=
  fun w =>
    match fs_size (files w) filename with
    | Some size => (inr (FileBytes filename size), w)
    | None => (inl (FileNotFoundError filename), w)
    end.

(** The extraction call: the trace entry and the files it leaves. *)
Definition ydl_extract (env : Env) (url : string) (opts : ydl_opts) : M (dict * string) :=
  fun w =>
    match extract_info env url opts (files w) with
    | ExtractionError e files_after =>
        (inl e,
         {| files := files_after;
            trace := trace w ++ [Raised (ExtractInfo url opts) e] |})
    | ExtractedMedia info prepared files_after =>
        (inr (info, prepared),
         {| files := files_after;
            trace := trace w ++ [Returned (ExtractInfo url opts)] |})
    end.

(** ** [handle_quality_selection] *)

Record Update : Type := {
  query_data : string;          (* update.callback_query.data *)
  effective_user_id : Z         (* update.effective_user.id *)
}.

(** The [return] statement through which the handler leaves; [Failed e]
    is the end of the [except] block entered with [e]. The handler itself
    returns [None] in every case. *)
Inductive outcome : Type :=
| SessionExpired
| BanCheckFailed
| SizeRejected
| Completed
| Failed (e : exn).

Definition NL : string := String (ascii_of_nat 10%nat) EmptyString.

Definition SESSION_EXPIRED_TEXT : string :=
  "‚ùå Session expired. Please send the link again.".
Definition BANNED_TEXT : string := "‚ùå You are banned from using this bot.".
Definition STARTING_TEXT : string := "‚è≥ Starting download...".
Definition DOWNLOADING_TEXT : string := "üì• Downloading... 0%".
Definition UPLOADING_TEXT : string := "üì§ Uploading to Telegram...".
Definition COMPLETE_TEXT : string := "‚úÖ Download complete!".
Definition UPSELL_HINT : string := "‚≠ê Upgrade to Premium for larger files!".
Definition DEFAULT_ERROR_MESSAGE : string := "‚ùå Download failed.".

(** [db_user if db_user else None]: a missing or empty profile. *)
Definition profile (db_user : option dict) : option dict :=
  match db_user with
  | Some d => if dict_truthy d then Some d else None
  | None => None
  end.

(** [db_user.get(flag, False) if db_user else False]. *)
Definition user_flag (db_user : option dict) (flag : string) : pyval :=
  match profile db_user with
  | Some d => dict_get d flag (PBool false)
  | None => PBool false
  end.

(** [PREMIUM_MAX_SIZE if is_premium else FREE_MAX_SIZE]. *)
Definition max_size_for (is_premium : pyval) : Z :=
  if truthy is_premium then PREMIUM_MAX_SIZE else FREE_MAX_SIZE.

(** [file_size > max_size]. *)
Definition too_large (file_size max_size : Z) : bool := file_size >? max_size.

Definition is_audio (quality : string) : bool := String.eqb quality "audio".

(** The record logged at the start of a download. *)
Definition download_data (user_id : Z) (url platform quality : string) : dict :=
  mkdict
    [ ("telegram_user_id", PStr (pretty user_id));
      ("url", PStr url);
      ("platform", PStr platform);
      ("quality", PStr quality);
      ("status", PStr "downloading");
      ("media_type", PStr (if is_audio quality then "audio" else "video"));
      ("format", PStr (if is_audio quality then "mp3" else "mp4")) ].

(** [f"File too large ({file_size / (1024**3):.1f}GB > {limit_gb:.0f}GB limit)"]. *)
Definition too_large_error (env : Env) (file_size max_size : Z) : string :=
  "File too large (" +:+ format_gb env 1 file_size +:+ "GB > "
    +:+ format_gb env 0 max_size +:+ "GB limit)".

Definition too_large_data (env : Env) (file_size max_size : Z) : dict :=
  mkdict
    [ ("status", PStr "failed");
      ("error_message", PStr (too_large_error env file_size max_size)) ].

(** The text shown to a free user whose file is rejected. *)
Definition free_limit_text (env : Env) (file_size max_size : Z) : string :=
  "‚ùå File is " +:+ format_gb env 1 file_size +:+ "GB, exceeds free limit of "
    +:+ format_gb env 0 max_size +:+ "GB." +:+ NL +:+ NL +:+ UPSELL_HINT.

(** The text shown to a premium user whose file is rejected. *)
Definition premium_limit_text (env : Env) (file_size : Z) : string :=
  "‚ùå File too large (" +:+ format_gb env 1 file_size +:+ "GB)".

Definition completed_data (title : pyval) (file_size : Z) (duration : pyval) : dict :=
  mkdict
    [ ("status", PStr "completed");
      ("title", title);
      ("file_size", PInt file_size);
      ("duration", duration) ].

Definition stats_data (user_id : Z) (total_downloads total_data : pyval) : dict :=
  mkdict
    [ ("telegram_id", PStr (pretty user_id));
      ("total_downloads", total_downloads);
      ("total_data_downloaded", total_data) ].

(** [{"status": "failed", "error_message": str(e)[:500]}]. *)
Definition error_data (e : exn) : dict :=
  mkdict
    [ ("status", PStr "failed");
      ("error_message", PStr (PyStr.take 500 (exn_str e))) ].

(** [f"{error_msg}\n\nError: {str(e)[:100]}"]. *)
Definition error_text (error_msg : pyval) (e : exn) : string :=
  py_str error_msg +:+ NL +:+ NL +:+ "Error: " +:+ PyStr.take 100 (exn_str e).

Definition audio_caption (title : pyval) : string := "üéµ " +:+ py_str title.

Definition video_caption (title : pyval) (quality : string) : string :=
  "üé¨ " +:+ py_str title +:+ NL +:+ "üìä Quality: " +:+ quality.

(** The branch taken when [file_size > max_size]. *)
Definition reject_oversized (env : Env) (download_id is_premium : pyval)
    (filename : string) (file_size max_size : Z) : M outcome :=
  os_remove filename ;;
  perform (UpdateDownload download_id (too_large_data env file_size max_size))
    (update_download env download_id (too_large_data env file_size max_size)) ;;
  (if negb (truthy is_premium)
   then perform (StatusEditText (free_limit_text env file_size max_size))
          (status_edit_text env (free_limit_text env file_size max_size))
   else perform (StatusEditText (premium_limit_text env file_size))
          (status_edit_text env (premium_limit_text env file_size))) ;;
  ret SizeRejected.

(** The [if db_user:] block updating the user's counters. *)
Definition update_user_stats (env : Env) (user_id : Z) (db_user : option dict)
    (file_size : Z) : M unit :=
  match profile db_user with
  | Some d =>
      total_downloads <-
        lift (py_add_int (py_or (dict_get d "total_downloads" (PInt 0)) (PInt 0)) 1) ;;
      total_data <-
        lift (py_add_int (py_or (dict_get d "total_data_downloaded" (PInt 0)) (PInt 0))
                file_size) ;;
      perform (SyncUser (stats_data user_id total_downloads total_data))
        (sync_user env (stats_data user_id total_downloads total_data))
  | None => ret tt
  end.

(** The upload and what follows it. *)
Definition deliver (env : Env) (user_id : Z) (db_user : option dict)
    (download_id : pyval) (quality : string) (info : dict) (title : pyval)
    (filename : string) (file_size : Z) : M outcome :=
  perform (StatusEditText UPLOADING_TEXT) (status_edit_text env UPLOADING_TEXT) ;;
  file_data <- read_file filename ;;
  (if is_audio quality
   then perform
          (SendAudio file_data title (py_str title +:+ ".mp3") (audio_caption title))
          (send_audio env file_data title (py_str title +:+ ".mp3") (audio_caption title))
   else perform
          (SendVideo file_data (py_str title +:+ ".mp4") (video_caption title quality))
          (send_video env file_data (py_str title +:+ ".mp4")
             (video_caption title quality))) ;;
  perform
    (UpdateDownload download_id
       (completed_data title file_size (dict_get info "duration" PNone)))
    (update_download env download_id
       (completed_data title file_size (dict_get info "duration" PNone))) ;;
  update_user_stats env user_id db_user file_size ;;
  perform (StatusEditText COMPLETE_TEXT) (status_edit_text env COMPLETE_TEXT) ;;
  os_remove filename ;;
  ret Completed.

(** [filename = ydl.prepare_filename(info)], replaced for audio by
    [filename.rsplit(".", 1)[0] + ".mp3"]: the file the handler looks for
    after the extraction. *)
Definition media_filename (quality prepared : string) : string :=
  if is_audio quality
  then PyStr.rsplit1_head "." prepared +:+ ".mp3"
  else prepared.

(** The body of the [try] block. *)
Definition download (env : Env) (user_id : Z) (db_user : option dict)
    (download_id is_premium : pyval) (max_size : Z) (quality url : string)
  : M outcome :=
  sel <- lift (decode quality) ;;
  perform (StatusEditText DOWNLOADING_TEXT) (status_edit_text env DOWNLOADING_TEXT) ;;
  extracted <- ydl_extract env url (opts_for user_id sel) ;;
  let info := fst extracted in
  let title := dict_get info "title" (PStr "video") in
  let filename := media_filename quality (snd extracted) in
  file_size <- os_path_getsize filename ;;
  if too_large file_size max_size
  then reject_oversized env download_id is_premium filename file_size max_size
  else deliver env user_id db_user download_id quality info title filename file_size.

(** The [except Exception as e:] block. *)
Definition on_error (env : Env) (download_id : pyval) (e : exn) : M outcome :=
  perform (LoggerError ("Download error: " +:+ exn_str e)) None ;;
  perform (UpdateDownload download_id (error_data e))
    (update_download env download_id (error_data e)) ;;
  settings <- ask GetSettings (get_settings env) ;;
  perform
    (StatusEditText
       (error_text (dict_get settings "error_message" (PStr DEFAULT_ERROR_MESSAGE)) e))
    (status_edit_text env
       (error_text (dict_get settings "error_message" (PStr DEFAULT_ERROR_MESSAGE)) e)) ;;
  ret (Failed e).

Definition handle_quality_selection (env : Env) (update : Update)
    (user_data : gmap string string) : M outcome :=
  perform QueryAnswer (query_answer env) ;;
  quality <- lift (selected_quality (query_data update)) ;;
  let url := default "" (user_data !! "pending_url") in
  let platform := default "other" (user_data !! "platform") in
  let user_id := effective_user_id update in
  if String.eqb url ""
  then
    perform (QueryEditMessageText SESSION_EXPIRED_TEXT)
      (query_edit_message_text env SESSION_EXPIRED_TEXT) ;;
    ret SessionExpired
  else
    db_user <- ask (GetUser (pretty user_id)) (get_user env (pretty user_id)) ;;
    let is_premium := user_flag db_user "is_premium" in
    let is_banned := user_flag db_user "is_banned" in
    if truthy is_banned
    then
      perform (QueryEditMessageText BANNED_TEXT)
        (query_edit_message_text env BANNED_TEXT) ;;
      ret BanCheckFailed
    else
      let max_size := max_size_for is_premium in
      download_record <-
        ask (LogDownload (download_data user_id url platform quality))
          (log_download env (download_data user_id url platform quality)) ;;
      let download_id := dict_get download_record "id" PNone in
      perform (QueryEditMessageText STARTING_TEXT)
        (query_edit_message_text env STARTING_TEXT) ;;
      try_except
        (download env user_id db_user download_id is_premium max_size quality url)
        (on_error env download_id).

(** One run of the handler, from a file system and an empty trace. *)
Definition run (env : Env) (update : Update) (user_data : gmap string string)
    (fs : gmap string Z) : result outcome * world :=
  handle_quality_selection env update user_data {| files := fs; trace := [] |}.

(** ** Observing a run *)

Definition call_of (ev : event) : call :=
  match ev with
  | Returned c => c
  | Raised c _ => c
  end.

Definition is_extract (c : call) : bool :=
  match c with ExtractInfo _ _ => true | _ => false end.

Definition is_log_download (c : call) : bool :=
  match c with LogDownload _ => true | _ => false end.

Definition is_send (c : call) : bool :=
  match c with SendAudio _ _ _ _ | SendVideo _ _ _ => true | _ => false end.

Definition is_sync_user (c : call) : bool :=
  match c with SyncUser _ => true | _ => false end.

(** Some call satisfying [p] was issued, whether it returned or raised. *)
Definition invoked (p : call -> bool) (t : list event) : bool :=
  existsb (fun ev => p (call_of ev)) t.

(** Some call satisfying [p] raised. *)
Fixpoint raised (p : call -> bool) (t : list event) : bool :=
  match t with
  | [] => false
  | Raised c _ :: t' => p c || raised p t'
  | Returned _ :: t' => raised p t'
  end.

(** The events before the first call satisfying [p]. *)
Fixpoint before (p : call -> bool) (t : list event) : list event :=
  match t with
  | [] => []
  | ev :: t' => if p (call_of ev) then [] else ev :: before p t'
  end.

(** The download records created, in order. *)
Fixpoint records (t : list event) : list dict :=
  match t with
  | [] => []
  | Returned (LogDownload data) :: t' => data :: records t'
  | _ :: t' => records t'
  end.

(** The payloads of the record updates that went through, in order. *)
Fixpoint updates (t : list event) : list dict :=
  match t with
  | [] => []
  | Returned (UpdateDownload _ data) :: t' => data :: updates t'
  | _ :: t' => updates t'
  end.

(** The payloads of the user upserts that went through, in order. *)
Fixpoint upserts (t : list event) : list dict :=
  match t with
  | [] => []
  | Returned (SyncUser data) :: t' => data :: upserts t'
  | _ :: t' => upserts t'
  end.

(** [d["status"]], when it is a string. *)
Definition status_of (d : dict) : option string :=
  match d !! "status" with
  | Some (PStr s) => Some s
  | _ => None
  end.

(** The integer a counter holds: booleans count as 0 and 1. *)
Definition py_int (v : pyval) : option Z :=
  match v with
  | PInt n => Some n
  | PBool b => Some (Z.b2z b)
  | PNone | PStr _ => None
  end.

(** [db_user.get(key, 0) or 0]. *)
Definition counter (d : dict) (key : string) : pyval :=
  py_or (dict_get d key (PInt 0)) (PInt 0).

(** [s.endswith(suffix)]. *)
Fixpoint ends_with (suffix s : string) : bool :=
  String.eqb s suffix ||
  match s with
  | EmptyString => false
  | String _ s' => ends_with suffix s'
  end.

Fixpoint last_char (s : string) : option ascii :=
  match s with
  | EmptyString => None
  | String c EmptyString => Some c
  | String _ s' => last_char s'
  end.

(** The text shown when the file is rejected. *)
Definition rejection_text (env : Env) (is_premium : pyval) (file_size max_size : Z)
  : string :=
  if negb (truthy is_premium)
  then free_limit_text env file_size max_size
  else premium_limit_text env file_size.

(** The preset vocabulary with the selection each preset stands for. *)
Definition SELECTIONS : list (string * QualitySelection) :=
  [ ("180p", VideoHeightCap 180); ("240p", VideoHeightCap 240);
    ("360p", VideoHeightCap 360); ("480p", VideoHeightCap 480);
    ("720p", VideoHeightCap 720); ("1080p", VideoHeightCap 1080);
    ("1440p", VideoHeightCap 1440); ("4k", VideoHeightCap 2160);
    ("best", BestAvailable); ("audio", AudioOnly) ].

(** ** The size check as a checkpoint of the run *)

(** The values in scope when the size of the downloaded file is checked. *)
Record checkpoint : Type := {
  cp_quality : string;
  cp_url : string;
  cp_db_user : option dict;
  cp_record : dict;
  cp_sel : QualitySelection;
  cp_info : dict;
  cp_prepared : string;
  cp_files : gmap string Z;
  cp_file_size : Z
}.

Definition cp_filename (c : checkpoint) : string :=
  media_filename (cp_quality c) (cp_prepared c).

Definition cp_is_premium (c : checkpoint) : pyval :=
  user_flag (cp_db_user c) "is_premium".
Definition cp_max_size (c : checkpoint) : Z := max_size_for (cp_is_premium c).
Definition cp_download_id (c : checkpoint) : pyval :=
  dict_get (cp_record c) "id" PNone.
Definition cp_title (c : checkpoint) : pyval :=
  dict_get (cp_info c) "title" (PStr "video").
Definition cp_duration (c : checkpoint) : pyval :=
  dict_get (cp_info c) "duration" PNone.

Definition cp_download_data (update : Update) (user_data : gmap string string)
    (c : checkpoint) : dict :=
  download_data (effective_user_id update) (cp_url c)
    (default "other" (user_data !! "platform")) (cp_quality c).

(** The run reaches the size check: every step up to and including the
    extraction returned, and the file named by the handler exists. *)
Record reaches_size_check (env : Env) (update : Update)
    (user_data : gmap string string) (fs : gmap string Z) (c : checkpoint)
  : Prop := {
  rs_answer : query_answer env = None;
  rs_quality : selected_quality (query_data update) = inr (cp_quality c);
  rs_url : user_data !! "pending_url" = Some (cp_url c);
  rs_url_nonempty : cp_url c <> "";
  rs_user : get_user env (pretty (effective_user_id update)) = inr (cp_db_user c);
  rs_not_banned : truthy (user_flag (cp_db_user c) "is_banned") = false;
  rs_logged :
    log_download env (cp_download_data update user_data c) = inr (cp_record c);
  rs_starting : query_edit_message_text env STARTING_TEXT = None;
  rs_decode : decode (cp_quality c) = inr (cp_sel c);
  rs_downloading : status_edit_text env DOWNLOADING_TEXT = None;
  rs_extracted :
    extract_info env (cp_url c) (opts_for (effective_user_id update) (cp_sel c)) fs
    = ExtractedMedia (cp_info c) (cp_prepared c) (cp_files c);
  rs_size : fs_size (cp_files c) (cp_filename c) = Some (cp_file_size c)
}.

(** The trace at the size check. *)
Definition cp_trace (update : Update) (user_data : gmap string string)
    (c : checkpoint) : list event :=
  [ Returned QueryAnswer;
    Returned (GetUser (pretty (effective_user_id update)));
    Returned (LogDownload (cp_download_data update user_data c));
    Returned (QueryEditMessageText STARTING_TEXT);
    Returned (StatusEditText DOWNLOADING_TEXT);
    Returned (ExtractInfo (cp_url c) (opts_for (effective_user_id update) (cp_sel c))) ].

(** What remains of the handler from the size check on. *)
Definition after_extraction (env : Env) (update : Update) (c : checkpoint)
  : M outcome :=
  try_except
    (if too_large (cp_file_size c) (cp_max_size c)
     then reject_oversized env (cp_download_id c) (cp_is_premium c) (cp_filename c)
            (cp_file_size c) (cp_max_size c)
     else deliver env (effective_user_id update) (cp_db_user c) (cp_download_id c)
            (cp_quality c) (cp_info c) (cp_title c) (cp_filename c) (cp_file_size c))
    (on_error env (cp_download_id c)).

(** The bytes handed to the send operation. *)
Definition cp_file_data (c : checkpoint) : file_bytes :=
  FileBytes (cp_filename c) (cp_file_size c).

(** The send call of the delivery, by selection kind. *)
Definition delivery_call (c : checkpoint) : call :=
  if is_audio (cp_quality c)
  then SendAudio (cp_file_data c) (cp_title c) (py_str (cp_title c) +:+ ".mp3")
         (audio_caption (cp_title c))
  else SendVideo (cp_file_data c) (py_str (cp_title c) +:+ ".mp4")
         (video_caption (cp_title c) (cp_quality c)).

(** What the chat transport answers to it. *)
Definition delivery_response (env : Env) (c : checkpoint) : option exn :=
  if is_audio (cp_quality c)
  then send_audio env (cp_file_data c) (cp_title c) (py_str (cp_title c) +:+ ".mp3")
         (audio_caption (cp_title c))
  else send_video env (cp_file_data c) (py_str (cp_title c) +:+ ".mp4")
         (video_caption (cp_title c) (cp_quality c)).

(** The call that follows the size check. *)
Definition size_verdict (env : Env) (c : checkpoint) : call :=
  if too_large (cp_file_size c) (cp_max_size c)
  then UpdateDownload (cp_download_id c)
         (too_large_data env (cp_file_size c) (cp_max_size c))
  else StatusEditText UPLOADING_TEXT.

(** ** Concrete runs

    A user with id 7 who sent a YouTube link and picked 720p, and
    collaborators that return unless told to raise. *)

Module Scenario.

Fixpoint zeros (n : nat) : string :=
  match n with
  | O => EmptyString
  | S n' => String "0" (zeros n')
  end.

(** [f"{n / (1024**3):.{digits}f}"] for a size that a float holds
    exactly: the quotient rounded to [digits] decimals, ties to even. *)
Definition decimal_gb (digits : nat) (n : Z) : string :=
  let scale := 10 ^ Z.of_nat digits in
  let q := (n * scale) / 2 ^ 30 in
  let r := (n * scale) mod 2 ^ 30 in
  let rounded :=
    if (2 * r >? 2 ^ 30) || ((2 * r =? 2 ^ 30) && Z.odd q) then q + 1 else q in
  let fraction := pretty (rounded mod scale) in
  match digits with
  | O => pretty rounded
  | _ =>
      pretty (rounded / scale) +:+ "."
        +:+ zeros (digits - String.length fraction) +:+ fraction
  end.

Definition url : string := "https://youtube.com/watch?v=X".

Definition user_data : gmap string string :=
  list_to_map [("pending_url", url); ("platform", detect_platform url)].

Definition update : Update :=
  {| query_data := callback_token "720p" url; effective_user_id := 7 |}.

Definition free_user : dict :=
  mkdict
    [ ("id", PStr "u7"); ("telegram_id", PStr "7"); ("is_premium", PBool false);
      ("is_banned", PBool false); ("total_downloads", PInt 3);
      ("total_data_downloaded", PInt 4096) ].

Definition banned_user : dict :=
  mkdict
    [ ("id", PStr "u7"); ("telegram_id", PStr "7"); ("is_premium", PBool false);
      ("is_banned", PBool true) ].

Definition record : dict := mkdict [("id", PStr "d1")].

Definition info : dict := mkdict [("title", PStr "Clip"); ("duration", PInt 60)].

Definition path : string := "/tmp/7_Clip.mp4".

Definition env (db_user : option dict) (size : Z) (send_fault sync_fault : option exn)
  : Env :=
  {| query_answer := None;
     query_edit_message_text := fun _ => None;
     get_user := fun _ => inr db_user;
     log_download := fun _ => inr record;
     update_download := fun _ _ => None;
     sync_user := fun _ => sync_fault;
     get_settings := inr ∅;
     status_edit_text := fun _ => None;
     extract_info := fun _ _ fs => ExtractedMedia info path (fs_write path size fs);
     send_audio := fun _ _ _ _ => send_fault;
     send_video := fun _ _ _ => send_fault;
     format_gb := decimal_gb |}.

(** The size check of these runs. *)
Definition at_size_check (db_user : option dict) (size : Z) : checkpoint :=
  {| cp_quality := "720p";
     cp_url := url;
     cp_db_user := db_user;
     cp_record := record;
     cp_sel := VideoHeightCap 720;
     cp_info := info;
     cp_prepared := path;
     cp_files := fs_write path size ∅;
     cp_file_size := size |}.

Definition MiB : Z := 2 ^ 20.
Definition GiB : Z := 2 ^ 30.

(** A dashboard that fails to store the size rejection, with the message
    [db down], and stores every other update. *)
Definition size_update_fails (download_id : pyval) (data : dict) : option exn :=
  match data !! "error_message" with
  | Some (PStr message) =>
      if String.prefix "File too large" message then Some (Error "db down") else None
  | _ => None
  end.

(** The collaborators of [env] with that dashboard. *)
Definition env_size_update_fails (db_user : option dict) (size : Z) : Env :=
  {| query_answer := None;
     query_edit_message_text := fun _ => None;
     get_user := fun _ => inr db_user;
     log_download := fun _ => inr record;
     update_download := size_update_fails;
     sync_user := fun _ => None;
     get_settings := inr ∅;
     status_edit_text := fun _ => None;
     extract_info := fun _ _ fs => ExtractedMedia info path (fs_write path size fs);
     send_audio := fun _ _ _ _ => None;
     send_video := fun _ _ _ => None;
     format_gb := decimal_gb |}.

End Scenario.

(** * The rest of the bot *)

(** ** More ways to observe a run *)

Definition is_update (c : call) : bool :=
  match c with UpdateDownload _ _ => true | _ => false end.

Definition is_get_settings (c : call) : bool :=
  match c with GetSettings => true | _ => false end.

(** How many calls satisfying [p] were issued. *)
Fixpoint count_calls (p : call -> bool) (t : list event) : nat :=
  match t with
  | [] => O
  | ev :: t' => if p (call_of ev) then S (count_calls p t') else count_calls p t'
  end.

(** The texts passed to [status_msg.edit_text], in order, whether the
    call returned or raised. *)
Fixpoint status_texts (t : list event) : list string :=
  match t with
  | [] => []
  | ev :: t' =>
      match call_of ev with
      | StatusEditText text => text :: status_texts t'
      | _ => status_texts t'
      end
  end.

(** The file handed to a send call. *)
Definition sent_file (c : call) : option file_bytes :=
  match c with
  | SendAudio audio _ _ _ => Some audio
  | SendVideo video _ _ => Some video
  | _ => None
  end.

(** The last event of a trace. *)
Fixpoint last_event (t : list event) : option event :=
  match t with
  | [] => None
  | [ev] => Some ev
  | _ :: t' => last_event t'
  end.

(** [s.startswith(p)]; a pattern [^p] with a literal [p] matches exactly
    the strings that start with [p]. *)
Fixpoint starts_with (p s : string) : bool :=
  match p, s with
  | EmptyString, _ => true
  | String _ _, EmptyString => false
  | String a p', String b s' => Ascii.eqb a b && starts_with p' s'
  end.

(** The pattern of the callback handler registered in [main]. *)
Definition QUALITY_PATTERN_PREFIX : string := "quality:".

(** The text shown at the end of the [except] block. *)
Definition shown_error_text (settings : dict) (e : exn) : string :=
  error_text (dict_get settings "error_message" (PStr DEFAULT_ERROR_MESSAGE)) e.

(** The button of a preset, as built in the loop of [get_quality_keyboard]. *)
Definition quality_button (url quality : string) : InlineKeyboardButton :=
  {| text := quality; callback_data := callback_token quality url |}.

(** Collaborators as in [env], except that the extraction answers [x]. *)
Definition with_extraction (x : extraction) (env : Env) : Env :=
  {| query_answer := query_answer env;
     query_edit_message_text := query_edit_message_text env;
     get_user := get_user env;
     log_download := log_download env;
     update_download := update_download env;
     sync_user := sync_user env;
     get_settings := get_settings env;
     status_edit_text := status_edit_text env;
     extract_info := fun _ _ _ => x;
     send_audio := send_audio env;
     send_video := send_video env;
     format_gb := format_gb env |}.

(** ** The message and command handlers

    [handle_url], [start], [help_command], [premium_command], [stats] and
    [broadcast] answer a message with [update.message.reply_text]. Their
    state is the user's [context.user_data]; their journal records the
    dashboard calls, as events of the download handler, and the replies.
    [start] and [handle_url] read the clock, once per request: the text
    [datetime.utcnow().isoformat()] gives at that moment is an input of the
    request, [utcnow]. *)

(** [c.isspace()] on ASCII characters. *)
Definition py_isspace (c : ascii) : bool :=
  ((9 <=? nat_of_ascii c)%nat && (nat_of_ascii c <=? 13)%nat)
  || ((28 <=? nat_of_ascii c)%nat && (nat_of_ascii c <=? 32)%nat).

(** [s.lstrip()]. *)
Fixpoint lstrip (s : string) : string :=
  match s with
  | EmptyString => EmptyString
  | String c s' => if py_isspace c then lstrip s' else s
  end.

(** [s.rstrip()]. *)
Fixpoint rstrip (s : string) : string :=
  match s with
  | EmptyString => EmptyString
  | String c s' =>
      match rstrip s' with
      | EmptyString => if py_isspace c then EmptyString else String c EmptyString
      | String c' r => String c (String c' r)
      end
  end.

(** [s.strip()]. *)
Definition strip (s : string) : string := rstrip (lstrip s).

(** [sub in s], case-sensitive. *)
Fixpoint contains (sub s : string) : bool :=
  starts_with sub s ||
  match s with
  | EmptyString => false
  | String _ s' => contains sub s'
  end.

(** The filter of the message handler registered in [main]:
    [filters.Regex(r"https?://")] searches the text for [http://] or
    [https://]. *)
Definition url_filter (message_text : string) : bool :=
  contains "http://" message_text || contains "https://" message_text.

Record User : Type := {
  user_id : Z;
  username : pyval;
  first_name : pyval;
  last_name : pyval
}.

Record MessageUpdate : Type := {
  message_text : string;        (* update.message.text *)
  effective_user : User         (* update.effective_user *)
}.

(** One call of [update.message.reply_text]. *)
Record Reply : Type := {
  reply_body : pyval;
  reply_markup : option (list (list InlineKeyboardButton));
  parse_markdown : bool
}.

Inductive command_event : Type :=
| Dashboard (ev : event)
| Replied (m : Reply)
| ReplyRaised (m : Reply) (e : exn).

(** The bot around the handlers: the dashboard client, the chat the
    replies go to and the administrators. *)
Record Bot : Type := {
  dashboard : Env;
  reply_text : Reply -> option exn;
  ADMIN_IDS : list Z
}.

Record session : Type := {
  context_user_data : gmap string string;
  journal : list command_event
}.

Definition Cmd (A : Type) : Type := session -> result A * session.

Definition cmd_ret {A} (a : A) : Cmd A := fun s => (inr a, s).

Definition cmd_bind {A B} (m : Cmd A) (k : A -> Cmd B) : Cmd B :=
  fun s =>
    match m s with
    | (inl e, s') => (inl e, s')
    | (inr a, s') => k a s'
    end.

Notation "x <~ c1 ;; c2" := (cmd_bind c1 (fun x => c2))
  (at level 100, c1 at next level, right associativity).
Notation "c1 ;;; c2" := (cmd_bind c1 (fun _ => c2))
  (at level 100, right associativity).

Definition cmd_lift {A} (r : result A) : Cmd A :=
  fun s =>
    match r with
    | inl e => (inl e, s)
    | inr a => (inr a, s)
    end.

Definition note (ev : command_event) (s : session) : session :=
  {| context_user_data := context_user_data s; journal := journal s ++ [ev] |}.

(** A dashboard call whose result is not used. *)
Definition dashboard_do (c : call) (response : option exn) : Cmd unit :=
  fun s =>
    match response with
    | None => (inr tt, note (Dashboard (Returned c)) s)
    | Some e => (inl e, note (Dashboard (Raised c e)) s)
    end.

(** A dashboard call whose result is used. *)
Definition dashboard_ask {A} (c : call) (response : result A) : Cmd A :=
  fun s =>
    match response with
    | inr a => (inr a, note (Dashboard (Returned c)) s)
    | inl e => (inl e, note (Dashboard (Raised c e)) s)
    end.

Definition reply (bot : Bot) (m : Reply) : Cmd unit :=
  fun s =>
    match reply_text bot m with
    | None => (inr tt, note (Replied m) s)
    | Some e => (inl e, note (ReplyRaised m e) s)
    end.

(** [context.user_data[key] = value]. *)
Definition store (key value : string) : Cmd unit :=
  fun s =>
    (inr tt,
     {| context_user_data := <[key := value]> (context_user_data s);
        journal := journal s |}).

Definition markdown (body : pyval) (markup : option (list (list InlineKeyboardButton)))
  : Reply :=
  {| reply_body := body; reply_markup := markup; parse_markdown := true |}.

Definition plain (body : pyval) : Reply :=
  {| reply_body := body; reply_markup := None; parse_markdown := false |}.

Definition DEFAULT_WELCOME : string := "Welcome! Send me a link to download.".
Definition DEFAULT_HELP : string := "Send a video/audio link to download.".
Definition DEFAULT_PREMIUM : string := "Contact admin for premium.".
Definition NO_STATS_TEXT : string := "No stats yet. Start downloading!".
Definition BROADCAST_TEXT : string := "üì° Broadcasts are managed from the dashboard.".

(** The payload of [start]'s upsert. *)
Definition start_data (utcnow : string) (user : User) : dict :=
  mkdict
    [ ("telegram_id", PStr (pretty (user_id user)));
      ("username", username user);
      ("first_name", first_name user);
      ("last_name", py_or (last_name user) (PStr ""));
      ("last_active", PStr utcnow) ].

Definition start (bot : Bot) (utcnow : string) (update : MessageUpdate) : Cmd unit :=
  dashboard_do (SyncUser (start_data utcnow (effective_user update)))
    (sync_user (dashboard bot) (start_data utcnow (effective_user update))) ;;;
  settings <~ dashboard_ask GetSettings (get_settings (dashboard bot)) ;;
  reply bot (markdown (dict_get settings "welcome_message" (PStr DEFAULT_WELCOME)) None).

Definition help_command (bot : Bot) (update : MessageUpdate) : Cmd unit :=
  settings <~ dashboard_ask GetSettings (get_settings (dashboard bot)) ;;
  reply bot (markdown (dict_get settings "help_message" (PStr DEFAULT_HELP)) None).

Definition premium_command (bot : Bot) (update : MessageUpdate) : Cmd unit :=
  settings <~ dashboard_ask GetSettings (get_settings (dashboard bot)) ;;
  reply bot (markdown (dict_get settings "premium_message" (PStr DEFAULT_PREMIUM)) None).

(** The payload of [handle_url]'s upsert. *)
Definition active_data (utcnow : string) (user : User) : dict :=
  mkdict
    [ ("telegram_id", PStr (pretty (user_id user)));
      ("last_active", PStr utcnow) ].

(** [f"... Detected: *{platform.upper()}*\n\nSelect quality:"]. *)
Definition detected_text (platform : string) : string :=
  "üé¨ Detected: *" +:+ PyStr.upper platform +:+ "*" +:+ NL +:+ NL +:+ "Select quality:".

Definition handle_url (bot : Bot) (utcnow : string) (update : MessageUpdate)
  : Cmd unit :=
  let url := strip (message_text update) in
  dashboard_do (SyncUser (active_data utcnow (effective_user update)))
    (sync_user (dashboard bot) (active_data utcnow (effective_user update))) ;;;
  let platform := detect_platform url in
  store "pending_url" url ;;;
  store "platform" platform ;;;
  reply bot (markdown (PStr (detected_text platform)) (Some (get_quality_keyboard url))).

Definition broadcast (bot : Bot) (update : MessageUpdate) : Cmd unit :=
  if negb (bool_decide (user_id (effective_user update) ∈ ADMIN_IDS bot))
  then cmd_ret tt
  else reply bot (plain (PStr BROADCAST_TEXT)).

(** [data / (1024**3)] formatted with two decimals; a string raises
    [TypeError]. *)
Definition data_gb_text (env : Env) (data : pyval) : result string :=
  match data with
  | PInt n => inr (format_gb env 2 n)
  | PBool b => inr (format_gb env 2 (Z.b2z b))
  | PNone =>
      inl (TypeError "unsupported operand type(s) for /: 'NoneType' and 'int'")
  | PStr _ => inl (TypeError "unsupported operand type(s) for /: 'str' and 'int'")
  end.

Definition stats_text (premium : string) (downloads : pyval) (data_gb : string)
  : string :=
  "üìä *Your Stats*" +:+ NL +:+ NL
    +:+ "Status: " +:+ premium +:+ NL
    +:+ "Downloads: " +:+ py_str downloads +:+ NL
    +:+ "Data: " +:+ data_gb +:+ " GB".

Definition stats (bot : Bot) (update : MessageUpdate) : Cmd unit :=
  db_user <~
    dashboard_ask (GetUser (pretty (user_id (effective_user update))))
      (get_user (dashboard bot) (pretty (user_id (effective_user update)))) ;;
  match profile db_user with
  | Some d =>
      let downloads := counter d "total_downloads" in
      let data := counter d "total_data_downloaded" in
      data_gb <~ cmd_lift (data_gb_text (dashboard bot) data) ;;
      let premium :=
        if truthy (dict_get d "is_premium" PNone) then "‚≠ê Premium" else "Free" in
      reply bot (markdown (PStr (stats_text premium downloads data_gb)) None)
  | None => reply bot (plain (PStr NO_STATS_TEXT))
  end.

(** A handler run on a user's stored data, from an empty journal. *)
Definition serve (handler : Cmd unit) (user_data : gmap string string)
  : result unit * session :=
  handler {| context_user_data := user_data; journal := [] |}.

(** The reply an event of the journal carries, sent or not. *)
Definition reply_of (ev : command_event) : option Reply :=
  match ev with
  | Dashboard _ => None
  | Replied m => Some m
  | ReplyRaised m _ => Some m
  end.

(** The replies of a journal, in order. *)
Fixpoint replies (j : list command_event) : list Reply :=
  match j with
  | [] => []
  | ev :: j' =>
      match reply_of ev with
      | Some m => m :: replies j'
      | None => replies j'
      end
  end.

(** The dashboard events of a journal, in order. *)
Fixpoint dashboard_events (j : list command_event) : list event :=
  match j with
  | [] => []
  | Dashboard ev :: j' => ev :: dashboard_events j'
  | _ :: j' => dashboard_events j'
  end.

(** Some character of [s] is not white space. *)
Fixpoint has_visible (s : string) : bool :=
  match s with
  | EmptyString => false
  | String c s' => negb (py_isspace c) || has_visible s'
  end.

(** Every character of [s] is white space. *)
Definition all_space (s : string) : bool := negb (has_visible s).

(** A bot whose collaborators all return, for the user of the concrete
    runs. *)
Definition scenario_user : User :=
  {| user_id := 7; username := PStr "ada"; first_name := PStr "Ada";
     last_name := PNone |}.

Definition scenario_bot (db_user : option dict) (settings : dict) : Bot :=
  {| dashboard :=
       {| query_answer := None;
          query_edit_message_text := fun _ => None;
          get_user := fun _ => inr db_user;
          log_download := fun _ => inr Scenario.record;
          update_download := fun _ _ => None;
          sync_user := fun _ => None;
          get_settings := inr settings;
          status_edit_text := fun _ => None;
          extract_info :=
            fun _ _ fs =>
              ExtractedMedia Scenario.info Scenario.path
                (fs_write Scenario.path (300 * Scenario.MiB) fs);
          send_audio := fun _ _ _ _ => None;
          send_video := fun _ _ _ => None;
          format_gb := Scenario.decimal_gb |};
     reply_text := fun _ => None;
     ADMIN_IDS := [1; 2] |}.

(** A reading of the clock. *)
Definition scenario_utcnow : string := "2024-05-01T12:00:00.000000".

Definition scenario_message : MessageUpdate :=
  {| message_text := "  https://youtube.com/watch?v=X ";
     effective_user := scenario_user |}.

(** ** The Base44 client

    The methods of [Base44Client] over HTTP: each request is answered by
    the server or fails, and the exchanges are recorded in order. A [GET] on
    an entity answers with a JSON array of records, a [POST] with the record
    created. No method checks the status of a response. *)

(** Python compares and hashes [True] as [1] and [False] as [0]: as keys of
    a dict they are the same key. *)
Definition py_key (v : pyval) : pyval :=
  match v with
  | PBool b => PInt (Z.b2z b)
  | _ => v
  end.

Definition pyval_to_sum (v : pyval) : unit + (bool + (Z + string)) :=
  match v with
  | PNone => inl tt
  | PBool b => inr (inl b)
  | PInt n => inr (inr (inl n))
  | PStr s => inr (inr (inr s))
  end.

Definition sum_to_pyval (x : unit + (bool + (Z + string))) : pyval :=
  match x with
  | inl _ => PNone
  | inr (inl b) => PBool b
  | inr (inr (inl n)) => PInt n
  | inr (inr (inr s)) => PStr s
  end.

#[global] Instance pyval_eq_dec : EqDecision pyval.
Proof. solve_decision. Defined.

#[global] Instance pyval_countable : Countable pyval.
Proof.
  refine (inj_countable' pyval_to_sum sum_to_pyval _).
  intros []; reflexivity.
Defined.

Inductive request : Type :=
| Get (url : string) (headers : dict) (params : option dict)
| Patch (url : string) (headers : dict) (json : dict)
| Post (url : string) (headers : dict) (json : dict).

Inductive exchange : Type :=
| Answered (r : request)
| Broken (r : request) (e : exn).

(** The server, as the client sees it. *)
Record Server : Type := {
  on_get : string -> dict -> option dict -> result (list dict);
  on_patch : string -> dict -> dict -> option exn;
  on_post : string -> dict -> dict -> result dict
}.

Module Base44Client.

Record client : Type := {
  base_url : string;
  headers : dict
}.

(** [__init__], from the configuration of the module. *)
Definition init (BASE44_API_URL : string) (BASE44_APP_ID BASE44_API_KEY : pyval)
  : client :=
  {| base_url := BASE44_API_URL;
     headers :=
       mkdict
         [ ("Authorization", PStr ("Bearer " +:+ py_str BASE44_API_KEY));
           ("X-App-ID", BASE44_APP_ID) ] |}.

Definition entity_url (self : client) (entity : string) : string :=
  base_url self +:+ "/entities/" +:+ entity.

Definition record_url (self : client) (entity : string) (id : pyval) : string :=
  base_url self +:+ "/entities/" +:+ entity +:+ "/" +:+ py_str id.

(** An awaited [session.get] whose JSON body is read. *)
Definition fetch (server : Server) (url : string) (hdrs : dict) (params : option dict)
  : result (list dict) * list exchange :=
  match on_get server url hdrs params with
  | inr rows => (inr rows, [Answered (Get url hdrs params)])
  | inl e => (inl e, [Broken (Get url hdrs params) e])
  end.

Definition sync_user (self : client) (server : Server) (user_data : dict)
  : result dict * list exchange :=
  match user_data !! "telegram_id" with
  | None => (inl (KeyError "telegram_id"), [])
  | Some telegram_id =>
      let params := Some (mkdict [("telegram_id", telegram_id)]) in
      match fetch server (entity_url self "TelegramUser") (headers self) params with
      | (inl e, log) => (inl e, log)
      | (inr [], log) =>
          let post := Post (entity_url self "TelegramUser") (headers self) user_data in
          match on_post server (entity_url self "TelegramUser") (headers self)
                  user_data with
          | inr created => (inr created, log ++ [Answered post])
          | inl e => (inl e, log ++ [Broken post e])
          end
      | (inr (first :: _), log) =>
          match first !! "id" with
          | None => (inl (KeyError "id"), log)
          | Some id =>
              let patch :=
                Patch (record_url self "TelegramUser" id) (headers self) user_data in
              match on_patch server (record_url self "TelegramUser" id) (headers self)
                      user_data with
              | None => (inr first, log ++ [Answered patch])
              | Some e => (inl e, log ++ [Broken patch e])
              end
          end
      end
  end.

Definition get_user (self : client) (server : Server) (telegram_id : string)
  : result (option dict) * list exchange :=
  match fetch server (entity_url self "TelegramUser") (headers self)
          (Some (mkdict [("telegram_id", PStr telegram_id)])) with
  | (inl e, log) => (inl e, log)
  | (inr [], log) => (inr None, log)
  | (inr (first :: _), log) => (inr (Some first), log)
  end.

Definition log_download (self : client) (server : Server) (download_data : dict)
  : result dict * list exchange :=
  let post := Post (entity_url self "Download") (headers self) download_data in
  match on_post server (entity_url self "Download") (headers self) download_data with
  | inr created => (inr created, [Answered post])
  | inl e => (inl e, [Broken post e])
  end.

Definition update_download (self : client) (server : Server) (download_id : pyval)
    (data : dict) : result unit * list exchange :=
  let patch := Patch (record_url self "Download" download_id) (headers self) data in
  match on_patch server (record_url self "Download" download_id) (headers self)
          data with
  | None => (inr tt, [Answered patch])
  | Some e => (inl e, [Broken patch e])
  end.

(** [{s["setting_key"]: s["setting_value"] for s in settings}], filling
    [acc] row by row. *)
Fixpoint collect_settings (rows : list dict) (acc : gmap pyval pyval)
  : result (gmap pyval pyval) :=
  match rows with
  | [] => inr acc
  | s :: rest =>
      match s !! "setting_key" with
      | None => inl (KeyError "setting_key")
      | Some k =>
          match s !! "setting_value" with
          | None => inl (KeyError "setting_value")
          | Some v => collect_settings rest (<[py_key k := v]> acc)
          end
      end
  end.

Definition get_settings (self : client) (server : Server)
  : result (gmap pyval pyval) * list exchange :=
  match fetch server (entity_url self "BotSettings") (headers self) None with
  | (inl e, log) => (inl e, log)
  | (inr rows, log) => (collect_settings rows ∅, log)
  end.

Definition get_pending_broadcasts (self : client) (server : Server)
  : result (list dict) * list exchange :=
  fetch server (entity_url self "Broadcast") (headers self)
    (Some (mkdict [("status", PStr "draft")])).

End Base44Client.



Definition is_write (x : exchange) : bool :=
  match x with
  | Answered (Get _ _ _) | Broken (Get _ _ _) _ => false
  | _ => true
  end.

Definition request_of (x : exchange) : request :=
  match x with
  | Answered r => r
  | Broken r _ => r
  end.

(** The number of [PATCH] and [POST] requests of a log. *)
Definition writes (log : list exchange) : nat := length (List.filter is_write log).

(** * Proofs *)

(** ** Symbolic execution of the handler

    [exec] unfolds the monad and the handler, follows the equations in
    the context and splits on every response that is still unknown. *)

Ltac reduce_run :=
  cbv beta iota zeta delta
    [run handle_quality_selection download deliver reject_oversized
     update_user_stats on_error after_extraction bind ret raise lift perform
     ask try_except os_path_getsize os_remove read_file ydl_extract log
     files trace fst snd app invoked raised before existsb call_of is_extract
     is_log_download is_send is_sync_user records updates upserts orb negb].

Ltac case_step :=
  match goal with
  | H : ?x = _ |- context [match ?x with _ => _ end] => rewrite H
  | |- context [match ?x with _ => _ end] =>
      lazymatch x with
      | context [match _ with _ => _ end] => fail
      | _ => destruct x eqn:?
      end
  end.

Ltac exec := reduce_run; repeat (case_step; reduce_run).

(** Opens a run, splitting on the pending URL first. *)
Ltac open_run user_data :=
  unfold run, handle_quality_selection;
  let url := fresh "url" in
  let Hurl := fresh "Hurl" in
  destruct (user_data !! "pending_url") as [url|] eqn:Hurl;
  cbn [default from_option id];
  [ let Hne := fresh "Hne" in
    destruct (String.eqb_spec url "") as [->|Hne]
  | change (String.eqb "" "") with true ].

(** Splits a goal about a run into one goal per path of the handler. *)
Ltac run_cases env update user_data fs :=
  let r := fresh "r" in
  let Hr := fresh "Hr" in
  let Q := fresh "Q" in
  remember (run env update user_data fs) as r eqn:Hr;
  pattern r;
  match goal with |- ?P r => set (Q := P) end;
  symmetry in Hr; revert Hr;
  open_run user_data; exec;
  intros <-; subst Q; cbv beta; reduce_run.

(** ** Dictionaries *)

Section Dictionaries.

Lemma status_download_data user_id url platform quality :
  status_of (download_data user_id url platform quality) = Some "downloading".
Proof. reflexivity. Qed.

Lemma status_completed_data title file_size duration :
  status_of (completed_data title file_size duration) = Some "completed".
Proof. reflexivity. Qed.

Lemma status_too_large_data env file_size max_size :
  status_of (too_large_data env file_size max_size) = Some "failed".
Proof. reflexivity. Qed.

Lemma status_error_data e : status_of (error_data e) = Some "failed".
Proof. reflexivity. Qed.

Lemma message_too_large_data env file_size max_size :
  too_large_data env file_size max_size !! "error_message"
  = Some (PStr (too_large_error env file_size max_size)).
Proof. reflexivity. Qed.

Lemma completed_data_fields title file_size duration :
  completed_data title file_size duration !! "title" = Some title
  /\ completed_data title file_size duration !! "file_size" = Some (PInt file_size)
  /\ completed_data title file_size duration !! "duration" = Some duration.
Proof. repeat split; reflexivity. Qed.

Lemma stats_data_fields user_id total_downloads total_data :
  stats_data user_id total_downloads total_data !! "total_downloads"
  = Some total_downloads
  /\ stats_data user_id total_downloads total_data !! "total_data_downloaded"
     = Some total_data.
Proof. split; reflexivity. Qed.

(** A dict holding a key is not empty, hence true. *)
Lemma dict_truthy_lookup (d : dict) key v : d !! key = Some v -> dict_truthy d = true.
Proof.
  intros H. unfold dict_truthy. rewrite bool_decide_eq_false_2; [reflexivity|].
  intros ->. rewrite lookup_empty in H. discriminate.
Qed.

Lemma user_flag_lookup (d : dict) flag v :
  d !! flag = Some v -> user_flag (Some d) flag = v.
Proof.
  intros H. unfold user_flag, profile. rewrite (dict_truthy_lookup d flag v H).
  unfold dict_get. now rewrite H.
Qed.

Lemma user_flag_none flag : user_flag None flag = PBool false.
Proof. reflexivity. Qed.

Lemma fs_size_remove path fs : fs_size (fs_remove path fs) path = None.
Proof. unfold fs_size, fs_remove. apply lookup_delete_eq. Qed.

Lemma fs_size_write path size fs : fs_size (fs_write path size fs) path = Some size.
Proof. unfold fs_size, fs_write. apply lookup_insert_eq. Qed.

Lemma py_add_int_value x n v :
  py_add_int x n = inr v -> exists m, py_int x = Some m /\ v = PInt (m + n).
Proof.
  destruct x as [|b|m|s]; cbn [py_add_int py_int]; intros H;
    try discriminate; injection H as <-; eauto.
Qed.

End Dictionaries.

(** ** Strings and patterns *)

Section Strings.

Lemma split_before_sep (sep : ascii) (a b : string) :
  PyStr.mem sep a = false ->
  PyStr.split sep (a +:+ String sep b) = a :: PyStr.split sep b.
Proof.
  induction a as [|c a IH]; simpl.
  - intros _. now rewrite Ascii.eqb_refl.
  - intros H. apply orb_false_elim in H as [Hc Ha].
    rewrite Hc, (IH Ha). reflexivity.
Qed.

Lemma selected_quality_token (quality url : string) :
  PyStr.mem ":" quality = false ->
  selected_quality (callback_token quality url) = inr quality.
Proof.
  intros H. unfold selected_quality, callback_token.
  change ("quality:" +:+ quality +:+ ":" +:+ PyStr.take 50 url)
    with ("quality" +:+ String ":" (quality +:+ String ":" (PyStr.take 50 url))).
  rewrite split_before_sep by reflexivity.
  rewrite split_before_sep by assumption.
  reflexivity.
Qed.

Lemma split_nonempty (sep : ascii) (s : string) : PyStr.split sep s <> [].
Proof.
  destruct s as [|c s]; simpl; [discriminate|].
  destruct (Ascii.eqb c sep); [discriminate|].
  destruct (PyStr.split sep s); discriminate.
Qed.

(** The handler is registered for the pattern [^quality:], so the data it
    receives always has a second field. *)
Lemma selected_quality_defined (rest : string) :
  exists quality, selected_quality ("quality:" +:+ rest) = inr quality.
Proof.
  unfold selected_quality.
  change ("quality:" +:+ rest) with ("quality" +:+ String ":" rest).
  rewrite split_before_sep by reflexivity.
  destruct (PyStr.split ":" rest) as [|w ws] eqn:E.
  - now apply split_nonempty in E.
  - now exists w.
Qed.

Lemma assoc_none_not_in {A} (key : string) (l : list (string * A)) :
  ~ In key (map fst l) -> assoc key l = None.
Proof.
  induction l as [|[k v] l IH]; simpl; intros H.
  - reflexivity.
  - destruct (String.eqb_spec k key) as [->|Hne].
    + exfalso. apply H. now left.
    + apply IH. intros Hin. apply H. now right.
Qed.

Lemma lower_char_idem c : PyStr.lower_char (PyStr.lower_char c) = PyStr.lower_char c.
Proof.
  destruct c as [[] [] [] [] [] [] [] []]; reflexivity.
Qed.

Lemma lower_upper_char c : PyStr.lower_char (PyStr.upper_char c) = PyStr.lower_char c.
Proof.
  destruct c as [[] [] [] [] [] [] [] []]; reflexivity.
Qed.

Lemma lower_upper s : PyStr.lower (PyStr.upper s) = PyStr.lower s.
Proof.
  induction s as [|c s IH]; simpl; [reflexivity|].
  now rewrite lower_upper_char, IH.
Qed.

Lemma lower_idem s : PyStr.lower (PyStr.lower s) = PyStr.lower s.
Proof.
  induction s as [|c s IH]; simpl; [reflexivity|].
  now rewrite lower_char_idem, IH.
Qed.

Lemma lower_app a b : PyStr.lower (a +:+ b) = PyStr.lower a +:+ PyStr.lower b.
Proof.
  induction a as [|c a IH]; simpl; [reflexivity|]. now rewrite IH.
Qed.

Lemma last_char_app (a b : string) :
  b <> "" -> last_char (a +:+ b) = last_char b.
Proof.
  intros Hb. induction a as [|c a IH]; [reflexivity|].
  simpl. rewrite IH. destruct (a +:+ b) eqn:E; [|reflexivity].
  destruct a; simpl in E; [contradiction|discriminate].
Qed.

Lemma ends_with_last_char (suffix s : string) :
  ends_with suffix s = true -> suffix <> "" -> last_char s = last_char suffix.
Proof.
  intros H Hne. induction s as [|c s IH].
  - change (ends_with suffix "") with (String.eqb "" suffix || false) in H.
    rewrite orb_false_r in H. apply String.eqb_eq in H. now subst.
  - change (ends_with suffix (String c s))
      with (String.eqb (String c s) suffix || ends_with suffix s) in H.
    apply orb_true_iff in H as [H|H].
    + apply String.eqb_eq in H. now subst.
    + specialize (IH H). destruct s as [|c' s]; [|exact IH].
      change (ends_with suffix "") with (String.eqb "" suffix || false) in H.
      rewrite orb_false_r in H. apply String.eqb_eq in H.
      congruence.
Qed.

Lemma ends_with_app (a suffix : string) : ends_with suffix (a +:+ suffix) = true.
Proof.
  induction a as [|c a IH].
  - destruct suffix; simpl; [reflexivity|]. now rewrite Ascii.eqb_refl, String.eqb_refl.
  - change (ends_with suffix (String c a +:+ suffix))
      with (String.eqb (String c (a +:+ suffix)) suffix || ends_with suffix (a +:+ suffix)).
    rewrite IH. apply orb_true_r.
Qed.

Lemma app_assoc_str (a b c : string) : (a +:+ b) +:+ c = a +:+ b +:+ c.
Proof.
  induction a as [|x a IH]; [reflexivity|].
  change (String x ((a +:+ b) +:+ c) = String x (a +:+ b +:+ c)).
  now rewrite IH.
Qed.

Lemma rejection_text_upsell env is_premium file_size max_size :
  ends_with UPSELL_HINT (rejection_text env is_premium file_size max_size)
  = negb (truthy is_premium).
Proof.
  unfold rejection_text. destruct (truthy is_premium); cbn [negb].
  - destruct (ends_with UPSELL_HINT (premium_limit_text env file_size)) eqn:E; [|reflexivity].
    apply ends_with_last_char in E; [|discriminate].
    unfold premium_limit_text in E.
    rewrite <- app_assoc_str in E.
    rewrite last_char_app in E by discriminate. discriminate.
  - unfold free_limit_text.
    repeat rewrite <- app_assoc_str. apply ends_with_app.
Qed.

End Strings.

Section Matching.

(** Matching only looks at the text up to the case of its letters. *)
Lemma match_here_lower (p s s' : string) :
  PyStr.lower s = PyStr.lower s' -> Re.match_here p s = Re.match_here p s'.
Proof.
  revert s s'. induction p as [|a p IH]; intros s s' H; [reflexivity|].
  destruct s as [|b s], s' as [|b' s']; simpl in *; try congruence.
  injection H as Hb Hs. unfold Re.eqb_icase. rewrite Hb, (IH _ _ Hs). reflexivity.
Qed.

Lemma find_lower (p s s' : string) :
  PyStr.lower s = PyStr.lower s' -> Re.find p s = Re.find p s'.
Proof.
  revert s'. induction s as [|b s IH]; intros [|b' s'] H; simpl in H; try congruence.
  injection H as Hb Hs.
    change (Re.find p (String b s)) with (Re.match_here p (String b s) || Re.find p s).
    change (Re.find p (String b' s')) with (Re.match_here p (String b' s') || Re.find p s').
  rewrite (IH _ Hs).
  rewrite (match_here_lower p (String b s) (String b' s')); [reflexivity|].
  simpl. now rewrite Hb, Hs.
Qed.

Lemma search_lower (r : Re.regex) (s s' : string) :
  PyStr.lower s = PyStr.lower s' -> Re.search r s = Re.search r s'.
Proof.
  intros H. induction r as [p|r1 IH1 r2 IH2]; simpl.
  - now apply find_lower.
  - now rewrite IH1, IH2.
Qed.

Lemma detect_in_lower table (s s' : string) :
  PyStr.lower s = PyStr.lower s' -> detect_in table s = detect_in table s'.
Proof.
  intros H. induction table as [|[tag pat] table IH]; simpl; [reflexivity|].
  now rewrite (search_lower pat s s' H), IH.
Qed.

(** An occurrence at the start is a prefix, up to case. *)
Lemma match_here_spec (p s : string) :
  Re.match_here p s = true <->
  exists rest, PyStr.lower s = PyStr.lower p +:+ rest.
Proof.
  revert s. induction p as [|a p IH]; intros s; simpl.
  - split; [intros _; now exists (PyStr.lower s)|reflexivity].
  - destruct s as [|b s]; simpl.
    + split; [discriminate|intros [rest H]; discriminate].
    + rewrite andb_true_iff, IH. unfold Re.eqb_icase. rewrite Ascii.eqb_eq.
      split.
      * intros [Hc [rest Hr]]. exists rest. now rewrite Hc, Hr.
      * intros [rest H]. injection H as Hc Hr. split; [now symmetry|now exists rest].
Qed.

(** An occurrence anywhere is a substring, up to case. *)
Lemma find_spec (p s : string) :
  Re.find p s = true <->
  exists before rest, PyStr.lower s = before +:+ PyStr.lower p +:+ rest.
Proof.
  induction s as [|b s IH].
  - simpl. rewrite orb_false_r, match_here_spec. split.
    + intros [rest H]. now exists "", rest.
    + intros [before [rest H]]. destruct before; simpl in H; [now exists rest|discriminate].
  - change (Re.find p (String b s)) with (Re.match_here p (String b s) || Re.find p s).
    rewrite orb_true_iff, IH, match_here_spec. split.
    + intros [[rest H]|[before [rest H]]].
      * now exists "", rest.
      * exists (String (PyStr.lower_char b) before), rest. simpl. now rewrite H.
    + intros [[|c before] [rest H]].
      * left. now exists rest.
      * right. simpl in H. injection H as _ H. now exists before, rest.
Qed.

Lemma detect_in_first table pre tag pat post url :
  table = pre ++ (tag, pat) :: post ->
  Re.search pat url = true ->
  Forall (fun e => Re.search (snd e) url = false) pre ->
  detect_in table url = tag.
Proof.
  intros -> Hpat Hpre. induction Hpre as [|[t r] pre Hx _ IH]; simpl.
  - now rewrite Hpat.
  - simpl in Hx. now rewrite Hx.
Qed.

Lemma detect_in_none table url :
  Forall (fun e => Re.search (snd e) url = false) table ->
  detect_in table url = "other".
Proof.
  induction 1 as [|[t r] table Hx _ IH]; simpl; [reflexivity|].
  simpl in Hx. now rewrite Hx.
Qed.

Lemma detect_in_range table url :
  detect_in table url = "other" \/ In (detect_in table url) (map fst table).
Proof.
  induction table as [|[t r] table IH]; simpl; [now left|].
  destruct (Re.search r url); [right; now left|].
  destruct IH as [IH|IH]; [now left|right; now right].
Qed.

End Matching.

(** C9: [detect_platform] returns the tag of the first entry of the ordered
    platform table whose pattern occurs in the URL, whatever the case of
    its letters, and "other" when no entry matches; it is a total function,
    so it always returns a tag. *)
Theorem detect_platform_first_match (url : string) :
  (forall pre tag pat post,
      PLATFORM_PATTERNS = pre ++ (tag, pat) :: post ->
      Re.search pat url = true ->
      Forall (fun e => Re.search (snd e) url = false) pre ->
      detect_platform url = tag)
  /\ (Forall (fun e => Re.search (snd e) url = false) PLATFORM_PATTERNS ->
      detect_platform url = "other")
  /\ (forall url', PyStr.lower url' = PyStr.lower url ->
      detect_platform url' = detect_platform url)
  /\ detect_platform (PyStr.upper url) = detect_platform url
  /\ (detect_platform url = "other"
      \/ In (detect_platform url) (map fst PLATFORM_PATTERNS)).
Proof.
  unfold detect_platform. repeat split.
  - intros pre tag pat post Htable Hpat Hpre.
    exact (detect_in_first _ pre tag pat post url Htable Hpat Hpre).
  - apply detect_in_none.
  - intros url' H. now apply detect_in_lower.
  - apply detect_in_lower, lower_upper.
  - apply detect_in_range.
Qed.

(** The examples of the specification, and a URL in mixed case. *)
Example detect_youtu_be : detect_platform "https://youtu.be/abc" = "youtube".
Proof. reflexivity. Qed.

Example detect_example_com : detect_platform "https://example.com/x" = "other".
Proof. reflexivity. Qed.

Example detect_mixed_case : detect_platform "HTTPS://WWW.TikTok.COM/@u" = "tiktok".
Proof. reflexivity. Qed.

(** The first match wins: this URL matches the twitter entry (through
    "x.com") and the later vimeo entry. *)
Example detect_first_entry_wins :
  detect_platform "https://netflix.com/watch?u=vimeo.com" = "twitter".
Proof. reflexivity. Qed.

Lemma decode_unknown (quality : string) :
  ~ In quality (QUALITY_OPTIONS ++ ["audio"]) ->
  decode quality = inl (KeyError quality).
Proof.
  intros H. unfold decode.
  destruct (String.eqb_spec quality "audio") as [->|_].
  - exfalso. apply H. apply in_or_app. right. now left.
  - unfold lookup_height. rewrite assoc_none_not_in; [reflexivity|].
    intros Hin. apply H. apply in_or_app. left. exact Hin.
Qed.

(** C8: for every preset of the vocabulary, the token that
    [get_quality_keyboard] attaches to its button decodes to the selection
    of that preset (the height caps 180 to 2160, no cap for "best" and
    "audio"); a token whose preset is not in the vocabulary fails to decode,
    with the [KeyError] of the failed lookup. *)
Theorem decode_token_round_trip (url : string) :
  map fst SELECTIONS = QUALITY_OPTIONS ++ ["audio"]
  /\ map callback_data (concat (get_quality_keyboard url))
     = map (fun quality => callback_token quality url) (QUALITY_OPTIONS ++ ["audio"])
  /\ (forall quality sel,
        In (quality, sel) SELECTIONS ->
        decode_token (callback_token quality url) = inr sel)
  /\ (forall quality,
        ~ In quality (QUALITY_OPTIONS ++ ["audio"]) ->
        PyStr.mem ":" quality = false ->
        decode_token (callback_token quality url) = inl (KeyError quality))
  /\ (forall data quality,
        selected_quality data = inr quality ->
        ~ In quality (QUALITY_OPTIONS ++ ["audio"]) ->
        decode_token data = inl (KeyError quality)).
Proof.
  split; [reflexivity|]. split; [reflexivity|]. split; [|split].
  - intros quality sel Hin. unfold decode_token.
    simpl in Hin.
    repeat (destruct Hin as [Hin|Hin];
            [injection Hin as <- <-; rewrite selected_quality_token by reflexivity;
             reflexivity|]).
    contradiction.
  - intros quality Hnot Hmem. unfold decode_token.
    rewrite selected_quality_token by assumption. now apply decode_unknown.
  - intros data quality Hsel Hnot. unfold decode_token. rewrite Hsel.
    now apply decode_unknown.
Qed.

(** ** The run from the size check on *)

Lemma run_from_checkpoint env update user_data fs c :
  reaches_size_check env update user_data fs c ->
  run env update user_data fs
  = after_extraction env update c
      {| files := cp_files c; trace := cp_trace update user_data c |}.
Proof.
  intros [Hanswer Hquality Hurl Hne Huser Hban Hlog Hstart Hdecode Hdown Hextract Hsize].
  unfold run, handle_quality_selection.
  unfold cp_download_data in *.
  rewrite Hurl. cbn [default from_option id].
  rewrite (proj2 (String.eqb_neq _ _) Hne).
  unfold after_extraction, cp_trace, cp_download_data.
  unfold cp_filename, cp_max_size, cp_is_premium, cp_download_id, cp_title in *.
  exec; reflexivity.
Qed.

(** Closes the goals that symbolic execution leaves: equations between
    concrete traces and outcomes. *)
Ltac close_run :=
  repeat match goal with
         | |- _ /\ _ => split
         | |- _ -> _ => intro
         end;
  try congruence;
  try reflexivity;
  try (apply fs_size_remove);
  try (do 2 eexists; split; reflexivity).

(** The first call after the size check is the rejection when the file is
    too large and the upload notice otherwise. *)
Lemma run_size_verdict env update user_data fs c :
  reaches_size_check env update user_data fs c ->
  exists ev rest,
    trace (snd (run env update user_data fs))
    = cp_trace update user_data c ++ ev :: rest
    /\ call_of ev = size_verdict env c.
Proof.
  intros Hreach. rewrite (run_from_checkpoint _ _ _ _ _ Hreach).
  destruct Hreach as [_ _ _ _ _ _ _ _ _ _ _ Hfile]. unfold size_verdict, cp_trace.
  exec; close_run.
Qed.

(** C7: the limit is 2^30 bytes for free users and 5 * 2^30 bytes for
    premium users, and the size check is a strict comparison: in a run
    that reaches it, a file of exactly the limit goes on to the upload,
    and a file one byte larger is rejected. *)
Theorem size_limit_boundary :
  FREE_MAX_SIZE = 2 ^ 30
  /\ PREMIUM_MAX_SIZE = 5 * 2 ^ 30
  /\ (forall is_premium,
        max_size_for is_premium = if truthy is_premium then 5 * 2 ^ 30 else 2 ^ 30)
  /\ (forall file_size limit, too_large file_size limit = true <-> file_size > limit)
  /\ (forall limit, too_large limit limit = false /\ too_large (limit + 1) limit = true)
  /\ (forall env update user_data fs c,
        reaches_size_check env update user_data fs c ->
        exists ev rest,
          trace (snd (run env update user_data fs))
          = cp_trace update user_data c ++ ev :: rest
          /\ (cp_file_size c = cp_max_size c ->
              call_of ev = StatusEditText UPLOADING_TEXT)
          /\ (cp_file_size c = cp_max_size c + 1 ->
              call_of ev
              = UpdateDownload (cp_download_id c)
                  (too_large_data env (cp_file_size c) (cp_max_size c)))).
Proof.
  split; [reflexivity|]. split; [reflexivity|].
  split; [|split; [|split]].
  - intros v. unfold max_size_for. now destruct (truthy v).
  - intros file_size limit. unfold too_large. lia.
  - intros limit. unfold too_large. split; lia.
  - intros env update user_data fs c Hreach.
    destruct (run_size_verdict _ _ _ _ _ Hreach) as (ev & rest & Htrace & Hcall).
    exists ev, rest. split; [exact Htrace|].
    unfold size_verdict, too_large in Hcall. split; intros Hsize.
    + rewrite Hcall. destruct (Z.gtb_spec (cp_file_size c) (cp_max_size c)); [lia|reflexivity].
    + rewrite Hcall. destruct (Z.gtb_spec (cp_file_size c) (cp_max_size c)); [reflexivity|lia].
Qed.

(** A free user at the boundary: a file of 2^30 bytes is delivered, one
    more byte and it is rejected. *)
Example free_user_at_limit_accepted :
  fst (run (Scenario.env (Some Scenario.free_user) (2 ^ 30) None None)
         Scenario.update Scenario.user_data ∅) = inr Completed.
Proof. vm_compute. reflexivity. Qed.

Example free_user_over_limit_rejected :
  fst (run (Scenario.env (Some Scenario.free_user) (2 ^ 30 + 1) None None)
         Scenario.update Scenario.user_data ∅) = inr SizeRejected.
Proof. vm_compute. reflexivity. Qed.

(** The size check of the concrete runs. *)
Lemma scenario_reaches db_user size send_fault sync_fault :
  truthy (user_flag db_user "is_banned") = false ->
  reaches_size_check (Scenario.env db_user size send_fault sync_fault)
    Scenario.update Scenario.user_data ∅ (Scenario.at_size_check db_user size).
Proof.
  intros Hban.
  constructor; first [reflexivity | assumption | discriminate | apply fs_size_write].
Qed.

(** C1, as the code has it: in every run in which the extraction succeeds
    and the file is larger than the user's limit, the local file is removed,
    no send call is made and the user's counters are not touched, and the
    first call after the size check is the update of the record to status
    "failed" with the message [File too large (...GB > ...GB limit)]. When
    that update returns, the next call shows the size text, which ends with
    the upsell hint exactly when the user is not premium, and when this call
    returns too the run ends at [SizeRejected] with that single update. When
    the update raises [e], the [except] block takes over: the run can only
    end at [Failed e], and the record is updated with the text of [e], or
    not at all. *)
Theorem oversized_file_is_rejected env update user_data fs c :
  reaches_size_check env update user_data fs c ->
  cp_file_size c > cp_max_size c ->
  let r := run env update user_data fs in
  let t := trace (snd r) in
  let size_gb := format_gb env 1 (cp_file_size c) in
  let limit_gb := format_gb env 0 (cp_max_size c) in
  let data :=
    mkdict
      [ ("status", PStr "failed");
        ("error_message",
         PStr ("File too large (" +:+ size_gb +:+ "GB > " +:+ limit_gb +:+ "GB limit)")) ] in
  let text :=
    if negb (truthy (cp_is_premium c))
    then "‚ùå File is " +:+ size_gb +:+ "GB, exceeds free limit of " +:+ limit_gb
           +:+ "GB." +:+ NL +:+ NL +:+ "‚≠ê Upgrade to Premium for larger files!"
    else "‚ùå File too large (" +:+ size_gb +:+ "GB)" in
  fs_size (files (snd r)) (cp_filename c) = None
  /\ invoked is_send t = false
  /\ invoked is_sync_user t = false
  /\ (exists ev rest,
        t = cp_trace update user_data c ++ ev :: rest
        /\ call_of ev = UpdateDownload (cp_download_id c) data)
  /\ ends_with "‚≠ê Upgrade to Premium for larger files!" text
     = negb (truthy (cp_is_premium c))
  /\ match update_download env (cp_download_id c) data with
     | None =>
         (exists ev rest,
             t = cp_trace update user_data c
                 ++ Returned (UpdateDownload (cp_download_id c) data) :: ev :: rest
             /\ call_of ev = StatusEditText text)
         /\ (status_edit_text env text = None ->
             fst r = inr SizeRejected
             /\ updates t = [data]
             /\ t = cp_trace update user_data c
                    ++ [ Returned (UpdateDownload (cp_download_id c) data);
                         Returned (StatusEditText text) ])
     | Some e =>
         (forall o, fst r = inr o -> o = Failed e)
         /\ (updates t = [] \/ updates t = [error_data e])
     end.
Proof.
  intros Hreach Hsize r t size_gb limit_gb data text.
  assert (Hdata : data = too_large_data env (cp_file_size c) (cp_max_size c))
    by reflexivity.
  assert (Htext : text
                  = rejection_text env (cp_is_premium c) (cp_file_size c) (cp_max_size c))
    by reflexivity.
  clearbody data text. subst data text.
  assert (Hlarge : too_large (cp_file_size c) (cp_max_size c) = true)
    by (unfold too_large; lia).
  pose proof (rejection_text_upsell env (cp_is_premium c) (cp_file_size c)
                (cp_max_size c)) as Hhint.
  change UPSELL_HINT with "‚≠ê Upgrade to Premium for larger files!" in Hhint.
  subst t r. rewrite (run_from_checkpoint _ _ _ _ _ Hreach).
  destruct Hreach as [_ _ _ _ _ _ _ _ _ _ _ Hfile].
  unfold rejection_text, cp_trace in *.
  exec;
    repeat match goal with
           | |- _ /\ _ => split
           | |- forall _, _ => intro
           end;
    first [ exact Hhint
          | apply fs_size_remove
          | reflexivity
          | congruence
          | do 2 eexists; split; reflexivity
          | left; reflexivity
          | right; reflexivity ].
Qed.

Lemma oversized_file_is_rejected_witness :
  let env := Scenario.env (Some Scenario.free_user) (2 * Scenario.GiB) None None in
  let c := Scenario.at_size_check (Some Scenario.free_user) (2 * Scenario.GiB) in
  let r := run env Scenario.update Scenario.user_data ∅ in
  reaches_size_check env Scenario.update Scenario.user_data ∅ c
  /\ cp_file_size c > cp_max_size c
  /\ fs_size (files (snd r)) Scenario.path = None
  /\ invoked is_send (trace (snd r)) = false
  /\ fst r = inr SizeRejected.
Proof.
  pose proof (scenario_reaches (Some Scenario.free_user) (2 * Scenario.GiB)
                None None eq_refl) as Hreach.
  pose proof (oversized_file_is_rejected _ _ _ _ _ Hreach eq_refl) as H.
  cbv zeta in H.
  destruct H as (Hfile & Hsend & _ & _ & _ & Hout).
  cbv beta iota delta [update_download Scenario.env] in Hout.
  split; [exact Hreach|]. split; [reflexivity|].
  split; [exact Hfile|]. split; [exact Hsend|].
  exact (proj1 (proj2 Hout eq_refl)).
Defined.

(** C1, refuted as stated: a free user's 2 GiB file, when the dashboard
    fails to store the size rejection. The handler ends in its [except]
    block: the record is marked "failed" with the text of the exception,
    not with the size message, and no text shown to the user ends with the
    upsell hint. The file is removed all the same. *)
Lemma oversized_update_failure :
  let env := Scenario.env_size_update_fails (Some Scenario.free_user) (2 * Scenario.GiB) in
  let c := Scenario.at_size_check (Some Scenario.free_user) (2 * Scenario.GiB) in
  let r := run env Scenario.update Scenario.user_data ∅ in
  reaches_size_check env Scenario.update Scenario.user_data ∅ c
  /\ cp_file_size c > cp_max_size c
  /\ truthy (cp_is_premium c) = false
  /\ fst r = inr (Failed (Error "db down"))
  /\ map (fun d => (status_of d, d !! "error_message")) (updates (trace (snd r)))
     = [(Some "failed", Some (PStr "db down"))]
  /\ status_texts (trace (snd r))
     = [DOWNLOADING_TEXT; "‚ùå Download failed." +:+ NL +:+ NL +:+ "Error: db down"]
  /\ existsb (ends_with UPSELL_HINT) (status_texts (trace (snd r))) = false
  /\ fs_size (files (snd r)) Scenario.path = None.
Proof.
  split.
  { constructor; first [reflexivity | discriminate | apply fs_size_write]. }
  split; [reflexivity|].
  split; [reflexivity|].
  split; [vm_compute; reflexivity|].
  split; [vm_compute; reflexivity|].
  split; [vm_compute; reflexivity|].
  split; [vm_compute; reflexivity|].
  vm_compute; reflexivity.
Qed.

(** ** Runs that return through the end of the [try] block *)

(** Solves [reaches_size_check] for a checkpoint assembled from the
    equations that symbolic execution left in the context. *)
Ltac assemble_checkpoint :=
  eexists (Build_checkpoint _ _ _ _ _ _ _ _ _);
  constructor;
  unfold cp_filename, cp_download_data;
  cbn [cp_quality cp_url cp_db_user cp_record cp_sel cp_info cp_prepared
       cp_files cp_file_size];
  repeat match goal with
         | H : is_audio _ = _ |- _ => rewrite H
         end;
  eassumption.

(** A run that ends at [Completed] or [SizeRejected] went through the
    size check. *)
Lemma returned_reaches env update user_data fs :
  fst (run env update user_data fs) = inr Completed
  \/ fst (run env update user_data fs) = inr SizeRejected ->
  exists c, reaches_size_check env update user_data fs c.
Proof.
  run_cases env update user_data fs;
    (intros [H|H]; try discriminate H); assemble_checkpoint.
Qed.

(** C2, as the code has it: in every run that completes, the file was
    within the limit and was delivered, the record is updated exactly once,
    to "completed" with title, byte size and duration, and the local file is
    removed. When the lookup returned a profile, the run makes exactly one
    upsert, which sets [total_downloads] to the loaded value plus one and
    [total_data_downloaded] to the loaded value plus the file size; when it
    returned no profile (or an empty one), the run makes no upsert. *)
Theorem completed_run_bookkeeping env update user_data fs :
  fst (run env update user_data fs) = inr Completed ->
  let r := run env update user_data fs in
  exists c,
    reaches_size_check env update user_data fs c
    /\ cp_file_size c <= cp_max_size c
    /\ In (Returned (delivery_call c)) (trace (snd r))
    /\ updates (trace (snd r))
       = [completed_data (cp_title c) (cp_file_size c) (cp_duration c)]
    /\ fs_size (files (snd r)) (cp_filename c) = None
    /\ match profile (cp_db_user c) with
       | Some d =>
           exists n m,
             py_int (counter d "total_downloads") = Some n
             /\ py_int (counter d "total_data_downloaded") = Some m
             /\ upserts (trace (snd r))
                = [stats_data (effective_user_id update)
                     (PInt (n + 1)) (PInt (m + cp_file_size c))]
       | None => upserts (trace (snd r)) = []
       end.
Proof.
  intros Hdone r.
  destruct (returned_reaches env update user_data fs (or_introl Hdone)) as [c Hreach].
  exists c. split; [exact Hreach|].
  subst r. revert Hdone. rewrite (run_from_checkpoint _ _ _ _ _ Hreach).
  destruct Hreach as [_ _ _ _ _ _ _ _ _ _ _ Hfile].
  unfold delivery_call, cp_file_data, cp_duration, counter, cp_trace.
  exec; intros Hdone; try discriminate Hdone.
  all: repeat match goal with
         | H : py_add_int _ _ = inr _ |- _ =>
             apply py_add_int_value in H as (? & ? & ->)
         end.
  all: repeat match goal with
         | |- _ /\ _ => split
         | |- exists _, _ => eexists
         end;
       first [ unfold too_large in *; lia | eassumption | reflexivity | apply fs_size_remove
             | cbn [In]; tauto ].
Qed.

Lemma completed_run_bookkeeping_witness :
  let env := Scenario.env (Some Scenario.free_user) (300 * Scenario.MiB) None None in
  let r := run env Scenario.update Scenario.user_data ∅ in
  fst r = inr Completed
  /\ exists c,
       reaches_size_check env Scenario.update Scenario.user_data ∅ c
       /\ updates (trace (snd r))
          = [completed_data (cp_title c) (cp_file_size c) (cp_duration c)]
       /\ fs_size (files (snd r)) (cp_filename c) = None.
Proof.
  assert (Hdone :
            fst (run (Scenario.env (Some Scenario.free_user) (300 * Scenario.MiB)
                        None None)
                   Scenario.update Scenario.user_data ∅) = inr Completed)
    by (vm_compute; reflexivity).
  split; [exact Hdone|].
  destruct (completed_run_bookkeeping _ _ _ _ Hdone)
    as (c & Hreach & _ & _ & Hupdates & Hfile & _).
  exists c. split; [exact Hreach|]. split; [exact Hupdates|exact Hfile].
Defined.

(** C2, refuted as stated: a free user without a profile on the dashboard
    downloads a 300 MiB file; the run completes and no upsert is made, so
    no counter is incremented. *)
Lemma completed_run_without_profile :
  let env := Scenario.env None (300 * Scenario.MiB) None None in
  let r := run env Scenario.update Scenario.user_data ∅ in
  fst r = inr Completed
  /\ map status_of (updates (trace (snd r))) = [Some "completed"]
  /\ upserts (trace (snd r)) = []
  /\ invoked is_sync_user (trace (snd r)) = false.
Proof. vm_compute. repeat split; reflexivity. Qed.

(** C3, where the code departs from it: when the send call raises, the
    [except] block runs without removing the local file, which is still
    there when the handler ends; the two other exits remove it. *)
Theorem delivery_failure_leaves_file env update user_data fs c e :
  reaches_size_check env update user_data fs c ->
  cp_file_size c <= cp_max_size c ->
  status_edit_text env UPLOADING_TEXT = None ->
  delivery_response env c = Some e ->
  let r := run env update user_data fs in
  fs_size (files (snd r)) (cp_filename c) = Some (cp_file_size c)
  /\ In (Raised (delivery_call c) e) (trace (snd r))
  /\ (forall o, fst r = inr o -> o = Failed e)
  /\ (update_download env (cp_download_id c) (error_data e) = None ->
      forall settings,
        get_settings env = inr settings ->
        status_edit_text env
          (error_text (dict_get settings "error_message" (PStr DEFAULT_ERROR_MESSAGE)) e)
        = None ->
        fst r = inr (Failed e) /\ updates (trace (snd r)) = [error_data e]).
Proof.
  intros Hreach Hsize Hupload Hsend r.
  assert (Hok : too_large (cp_file_size c) (cp_max_size c) = false)
    by (unfold too_large; lia).
  subst r. rewrite (run_from_checkpoint _ _ _ _ _ Hreach).
  destruct Hreach as [_ _ _ _ _ _ _ _ _ _ _ Hfile].
  unfold delivery_response, delivery_call, cp_file_data, cp_trace in *.
  exec.
  all: repeat match goal with
         | |- _ /\ _ => split
         | |- _ -> _ => intro
         | |- forall _, _ => intro
         end;
       first [ congruence | eassumption | reflexivity | cbn [In]; tauto ].
Qed.

Lemma delivery_failure_leaves_file_witness :
  let e := Error "Timed out" in
  let env := Scenario.env (Some Scenario.free_user) (300 * Scenario.MiB) (Some e) None in
  let c := Scenario.at_size_check (Some Scenario.free_user) (300 * Scenario.MiB) in
  let r := run env Scenario.update Scenario.user_data ∅ in
  reaches_size_check env Scenario.update Scenario.user_data ∅ c
  /\ cp_file_size c <= cp_max_size c
  /\ delivery_response env c = Some e
  /\ fst r = inr (Failed e)
  /\ fs_size (files (snd r)) Scenario.path = Some (300 * Scenario.MiB).
Proof.
  pose proof (scenario_reaches (Some Scenario.free_user) (300 * Scenario.MiB)
                (Some (Error "Timed out")) None eq_refl) as Hreach.
  assert (Hsize :
            cp_file_size
              (Scenario.at_size_check (Some Scenario.free_user) (300 * Scenario.MiB))
            <= cp_max_size
                 (Scenario.at_size_check (Some Scenario.free_user) (300 * Scenario.MiB)))
    by (vm_compute; discriminate).
  pose proof (delivery_failure_leaves_file _ _ _ _ _ (Error "Timed out")
                Hreach Hsize eq_refl eq_refl) as H.
  cbv zeta in H. destruct H as (Hfile & _ & _ & Hout).
  split; [exact Hreach|]. split; [exact Hsize|]. split; [reflexivity|].
  split; [exact (proj1 (Hout eq_refl ∅ eq_refl eq_refl))|exact Hfile].
Defined.

(** ** The life of a download record *)

(** Decides the cases left by a membership in a short list of updates. *)
Ltac pick_update :=
  repeat match goal with
         | H : In _ (_ :: _) |- _ => destruct H as [H|H]
         | H : In _ [] |- _ => destruct H
         end;
  subst;
  first [ reflexivity
        | match goal with
          | H : status_of (error_data _) = Some "completed" |- _ =>
              rewrite status_error_data in H; discriminate H
          | H : status_of (too_large_data _ _ _) = Some "completed" |- _ =>
              rewrite status_too_large_data in H; discriminate H
          end ].

Ltac close_updates :=
  repeat match goal with
         | |- _ /\ _ => split
         | |- forall _, _ => intro
         | |- _ -> _ => intro
         end;
  first [ discriminate
        | congruence
        | reflexivity
        | left; reflexivity
        | right; eexists; split; [reflexivity|]; split; reflexivity
        | right; eexists; reflexivity
        | eexists; split; reflexivity
        | match goal with H : _ \/ _ |- _ => destruct H; discriminate end
        | match goal with H : inr _ = inr _ |- _ => injection H as <- end;
          first [ reflexivity | left; reflexivity | right; eexists; reflexivity
                | pick_update ]
        | pick_update ].

(** C4, as the code has it: a run creates at most one record, with status
    "downloading", before any extraction call and before any update. When
    the handler returns from the completed or the size-rejected exit, the
    record has been updated exactly once, to "completed" or to "failed". When
    it returns from the [except] block, the last update is the one to
    "failed"; it is the only update when the extraction or the send call
    raised, and the second one when a step raised after an earlier update:
    after the completed-update, the record is updated twice, to "completed"
    and then to "failed". *)
Theorem record_update_discipline env update user_data fs :
  let r := run env update user_data fs in
  let t := trace (snd r) in
  records (before is_extract t) = records t
  /\ (records t = []
      \/ exists data, records t = [data] /\ status_of data = Some "downloading")
  /\ updates (before is_log_download t) = []
  /\ (invoked is_extract t = true ->
      updates (before is_extract t) = []
      /\ exists data,
           records (before is_extract t) = [data]
           /\ status_of data = Some "downloading")
  /\ (fst r = inr Completed ->
      exists d, updates t = [d] /\ status_of d = Some "completed")
  /\ (fst r = inr SizeRejected ->
      exists d, updates t = [d] /\ status_of d = Some "failed")
  /\ (forall e, fst r = inr (Failed e) ->
      updates t = [error_data e] \/ exists d, updates t = [d; error_data e])
  /\ (forall e, fst r = inr (Failed e) ->
      raised is_extract t = true \/ raised is_send t = true ->
      updates t = [error_data e])
  /\ (forall e d, fst r = inr (Failed e) ->
      In d (updates t) -> status_of d = Some "completed" ->
      updates t = [d; error_data e]).
Proof.
  intros r t. subst t r.
  run_cases env update user_data fs; solve [close_updates].
Qed.

(** C4, refuted as stated: the upload of a 300 MiB file succeeds and the
    record is updated to "completed"; the upsert of the user's counters
    then raises, and the [except] block updates the same record a second
    time, to "failed". *)
Lemma completed_record_overwritten :
  let e := Error "Service unavailable" in
  let env := Scenario.env (Some Scenario.free_user) (300 * Scenario.MiB) None (Some e) in
  let r := run env Scenario.update Scenario.user_data ∅ in
  fst r = inr (Failed e)
  /\ map status_of (records (trace (snd r))) = [Some "downloading"]
  /\ map status_of (updates (trace (snd r))) = [Some "completed"; Some "failed"].
Proof. vm_compute. repeat split; reflexivity. Qed.

(** ** Runs that stop before the download *)

Ltac close_early :=
  repeat match goal with
         | |- _ /\ _ => split
         | |- forall _, _ => intro
         | |- _ -> _ => intro
         end;
  first [ congruence
        | reflexivity
        | assumption
        | left; congruence
        | right; congruence
        | eexists; split; reflexivity
        | do 2 eexists; split; [reflexivity|]; cbn [call_of]; congruence
        | eexists; split; [reflexivity|]; reflexivity ].

(** C6: when no pending URL is stored for the user, the run creates no
    download record and never calls the extraction; after acknowledging the
    callback it only shows the session-expired text, and it ends at
    [SessionExpired] when that call returns. *)
Theorem session_expired_without_record env update user_data fs :
  user_data !! "pending_url" = None ->
  let r := run env update user_data fs in
  let t := trace (snd r) in
  invoked is_log_download t = false
  /\ records t = []
  /\ invoked is_extract t = false
  /\ files (snd r) = fs
  /\ (forall o, fst r = inr o -> o = SessionExpired)
  /\ (query_answer env = None ->
      forall quality, selected_quality (query_data update) = inr quality ->
      (exists ev,
          t = [Returned QueryAnswer; ev]
          /\ call_of ev = QueryEditMessageText SESSION_EXPIRED_TEXT)
      /\ (query_edit_message_text env SESSION_EXPIRED_TEXT = None ->
          fst r = inr SessionExpired)).
Proof.
  intros Hnone r t. subst t r.
  run_cases env update user_data fs; close_early.
Qed.

Lemma session_expired_without_record_witness :
  let env := Scenario.env (Some Scenario.free_user) (300 * Scenario.MiB) None None in
  let r := run env Scenario.update ∅ ∅ in
  (∅ : gmap string string) !! "pending_url" = None
  /\ fst r = inr SessionExpired
  /\ records (trace (snd r)) = []
  /\ invoked is_extract (trace (snd r)) = false.
Proof.
  pose proof (session_expired_without_record
                (Scenario.env (Some Scenario.free_user) (300 * Scenario.MiB) None None)
                Scenario.update ∅ ∅ eq_refl) as H.
  cbv zeta in H. destruct H as (_ & Hrec & Hext & _ & _ & Hout).
  split; [reflexivity|].
  split; [exact (proj2 (Hout eq_refl "720p" eq_refl) eq_refl)|].
  split; [exact Hrec|exact Hext].
Defined.

(** C5, as the code has it: when the loaded profile is banned, the run
    never calls the extraction and creates no download record; after the
    lookup it only shows the banned text, and it ends at [BanCheckFailed]
    when that call returns. *)
Theorem banned_user_is_refused env update user_data fs (d : dict) v :
  get_user env (pretty (effective_user_id update)) = inr (Some d) ->
  d !! "is_banned" = Some v ->
  truthy v = true ->
  let r := run env update user_data fs in
  let t := trace (snd r) in
  invoked is_extract t = false
  /\ invoked is_log_download t = false
  /\ records t = []
  /\ updates t = []
  /\ files (snd r) = fs
  /\ (forall o, fst r = inr o -> o = BanCheckFailed \/ o = SessionExpired)
  /\ (query_answer env = None ->
      forall quality url,
        selected_quality (query_data update) = inr quality ->
        user_data !! "pending_url" = Some url ->
        url <> "" ->
        (exists ev,
            t = [Returned QueryAnswer;
                 Returned (GetUser (pretty (effective_user_id update))); ev]
            /\ call_of ev = QueryEditMessageText BANNED_TEXT)
        /\ (query_edit_message_text env BANNED_TEXT = None ->
            fst r = inr BanCheckFailed)).
Proof.
  intros Huser Hlookup Hv r t. subst t r.
  assert (Hflag : truthy (user_flag (Some d) "is_banned") = true)
    by (rewrite (user_flag_lookup d "is_banned" v Hlookup); exact Hv).
  run_cases env update user_data fs; close_early.
Qed.

Lemma banned_user_is_refused_witness :
  let env := Scenario.env (Some Scenario.banned_user) (300 * Scenario.MiB) None None in
  let r := run env Scenario.update Scenario.user_data ∅ in
  Scenario.banned_user !! "is_banned" = Some (PBool true)
  /\ fst r = inr BanCheckFailed
  /\ invoked is_extract (trace (snd r)) = false.
Proof.
  pose proof (banned_user_is_refused
                (Scenario.env (Some Scenario.banned_user) (300 * Scenario.MiB) None None)
                Scenario.update Scenario.user_data ∅ Scenario.banned_user (PBool true)
                eq_refl eq_refl eq_refl) as H.
  cbv zeta in H. destruct H as (Hext & _ & _ & _ & _ & _ & Hout).
  split; [reflexivity|].
  split; [|exact Hext].
  refine (proj2 (Hout eq_refl "720p" Scenario.url eq_refl eq_refl _) eq_refl).
  discriminate.
Defined.

(** C5, refuted as stated: for a banned user the handler returns before
    [log_download] is reached, so no download record is logged. *)
Lemma banned_run_logs_no_record :
  let env := Scenario.env (Some Scenario.banned_user) (300 * Scenario.MiB) None None in
  let r := run env Scenario.update Scenario.user_data ∅ in
  Scenario.banned_user !! "is_banned" = Some (PBool true)
  /\ fst r = inr BanCheckFailed
  /\ invoked is_log_download (trace (snd r)) = false
  /\ records (trace (snd r)) = [].
Proof. vm_compute. repeat split; reflexivity. Qed.

(** C10: when the lookup returns no profile, the user counts as neither
    banned nor premium, so the run goes on to log the download and checks
    the file against the free limit of 2^30 bytes: in a run that reaches the
    size check, the next call is the rejection with the 1 GiB limit when the
    file is larger than 2^30 bytes, and the upload notice otherwise, and a
    larger file is removed, never sent, and answered with the text for free
    users. No upsert of the user's counters is ever made, in particular not
    when the run completes. *)
Theorem missing_profile_defaults env update user_data fs :
  get_user env (pretty (effective_user_id update)) = inr None ->
  let r := run env update user_data fs in
  let t := trace (snd r) in
  user_flag None "is_banned" = PBool false
  /\ user_flag None "is_premium" = PBool false
  /\ max_size_for (user_flag None "is_premium") = 2 ^ 30
  /\ (forall o, fst r = inr o -> o <> BanCheckFailed)
  /\ invoked is_sync_user t = false
  /\ upserts t = []
  /\ (fst r = inr Completed ->
      upserts t = []
      /\ exists d, updates t = [d] /\ status_of d = Some "completed")
  /\ (query_answer env = None ->
      forall quality url,
        selected_quality (query_data update) = inr quality ->
        user_data !! "pending_url" = Some url ->
        url <> "" ->
        exists ev rest,
          t = Returned QueryAnswer
              :: Returned (GetUser (pretty (effective_user_id update)))
              :: ev :: rest
          /\ call_of ev
             = LogDownload
                 (download_data (effective_user_id update) url
                    (default "other" (user_data !! "platform")) quality))
  /\ (forall c,
        reaches_size_check env update user_data fs c ->
        cp_db_user c = None
        /\ cp_max_size c = 2 ^ 30
        /\ (too_large (cp_file_size c) (cp_max_size c) = true
            <-> cp_file_size c > 2 ^ 30)
        /\ (exists ev rest,
              t = cp_trace update user_data c ++ ev :: rest
              /\ call_of ev
                 = if cp_file_size c >? 2 ^ 30
                   then UpdateDownload (cp_download_id c)
                          (too_large_data env (cp_file_size c) (2 ^ 30))
                   else StatusEditText UPLOADING_TEXT)
        /\ (cp_file_size c > 2 ^ 30 ->
            invoked is_send t = false
            /\ fs_size (files (snd r)) (cp_filename c) = None
            /\ (update_download env (cp_download_id c)
                  (too_large_data env (cp_file_size c) (2 ^ 30)) = None ->
                exists ev rest,
                  t = cp_trace update user_data c
                      ++ Returned
                           (UpdateDownload (cp_download_id c)
                              (too_large_data env (cp_file_size c) (2 ^ 30)))
                         :: ev :: rest
                  /\ call_of ev
                     = StatusEditText
                         (free_limit_text env (cp_file_size c) (2 ^ 30))))).
Proof.
  intros Huser r t. subst t r.
  assert (Hcp : forall c,
             reaches_size_check env update user_data fs c ->
             cp_db_user c = None
             /\ cp_max_size c = 2 ^ 30
             /\ (too_large (cp_file_size c) (cp_max_size c) = true
                 <-> cp_file_size c > 2 ^ 30)).
  { intros c Hreach. pose proof (rs_user _ _ _ _ _ Hreach) as Hu.
    rewrite Huser in Hu. injection Hu as Hu.
    assert (Hmax : cp_max_size c = 2 ^ 30)
      by (unfold cp_max_size, cp_is_premium; rewrite <- Hu; reflexivity).
    split; [now symmetry|]. split; [exact Hmax|].
    rewrite Hmax. unfold too_large. lia. }
  assert (Hflag : truthy (user_flag None "is_banned") = false) by reflexivity.
  assert (Hprofile : profile None = None) by reflexivity.
  match goal with
  | |- _ /\ _ /\ _ /\ _ /\ _ /\ _ /\ _ /\ _ /\ ?P => assert (Hlast : P)
  end.
  { intros c Hreach. destruct (Hcp c Hreach) as (Hu & Hmax & Hlarge).
    split; [exact Hu|]. split; [exact Hmax|]. split; [exact Hlarge|].
    assert (Hprem : cp_is_premium c = PBool false)
      by (unfold cp_is_premium; rewrite Hu; reflexivity).
    split.
    - destruct (run_size_verdict _ _ _ _ _ Hreach) as (ev & rest & Ht & Hcall).
      exists ev, rest. split; [exact Ht|].
      rewrite Hcall. unfold size_verdict, too_large. rewrite Hmax. reflexivity.
    - intros Hsize. apply Hlarge in Hsize.
      rewrite (run_from_checkpoint _ _ _ _ _ Hreach).
      destruct Hreach as [_ _ _ _ _ _ _ _ _ _ _ Hfile].
      unfold after_extraction, cp_trace. rewrite Hmax in *. rewrite Hprem.
      rewrite Hsize. unfold reject_oversized. cbn [truthy negb].
      exec;
        repeat match goal with
               | |- _ /\ _ => split
               | |- _ -> _ => intro
               end;
        first [ apply fs_size_remove
              | reflexivity
              | congruence
              | do 2 eexists; split; reflexivity ]. }
  revert Hlast.
  run_cases env update user_data fs; intros Hlast;
    repeat match goal with
           | |- forall c, reaches_size_check _ _ _ _ c -> _ => exact Hlast
           | |- _ /\ _ => split
           | |- forall _, _ => intro
           | |- _ -> _ => intro
           end;
    first [ congruence
          | reflexivity
          | assumption
          | left; congruence
          | right; congruence
          | eexists; split; reflexivity
          | do 2 eexists; split; [reflexivity|]; cbn [call_of]; congruence
          | eexists; split; [reflexivity|]; reflexivity ].
Qed.

Lemma missing_profile_defaults_witness :
  let env := Scenario.env None (300 * Scenario.MiB) None None in
  let r := run env Scenario.update Scenario.user_data ∅ in
  let env' := Scenario.env None (3 * Scenario.GiB) None None in
  let r' := run env' Scenario.update Scenario.user_data ∅ in
  get_user env (pretty (effective_user_id Scenario.update)) = inr None
  /\ fst r = inr Completed
  /\ upserts (trace (snd r)) = []
  /\ invoked is_sync_user (trace (snd r)) = false
  /\ reaches_size_check env' Scenario.update Scenario.user_data ∅
       (Scenario.at_size_check None (3 * Scenario.GiB))
  /\ invoked is_send (trace (snd r')) = false.
Proof.
  pose proof (missing_profile_defaults
                (Scenario.env None (300 * Scenario.MiB) None None)
                Scenario.update Scenario.user_data ∅ eq_refl) as H.
  pose proof (missing_profile_defaults
                (Scenario.env None (3 * Scenario.GiB) None None)
                Scenario.update Scenario.user_data ∅ eq_refl) as H'.
  pose proof (scenario_reaches None (3 * Scenario.GiB) None None eq_refl) as Hreach.
  cbv zeta in H, H'.
  destruct H as (_ & _ & _ & _ & Hsync & Hups & _).
  destruct H' as (_ & _ & _ & _ & _ & _ & _ & _ & Hcheck).
  destruct (Hcheck _ Hreach) as (_ & _ & _ & _ & Hbig).
  split; [reflexivity|]. split; [vm_compute; reflexivity|].
  split; [exact Hups|]. split; [exact Hsync|].
  split; [exact Hreach|].
  exact (proj1 (Hbig eq_refl)).
Defined.

(** ** The two scenarios of the specification *)

(** A free user picks 720p and the extraction returns a 300 MiB file: the
    file is sent as a video whose caption ends with the quality label, and
    the record ends up "completed". *)
Example free_user_small_file_completed :
  let env := Scenario.env (Some Scenario.free_user) (300 * Scenario.MiB) None None in
  let r := run env Scenario.update Scenario.user_data ∅ in
  fst r = inr Completed
  /\ In (Returned
           (SendVideo (FileBytes Scenario.path (300 * Scenario.MiB)) "Clip.mp4"
              (video_caption (PStr "Clip") "720p")))
       (trace (snd r))
  /\ ends_with "720p" (video_caption (PStr "Clip") "720p") = true
  /\ map status_of (updates (trace (snd r))) = [Some "completed"]
  /\ fs_size (files (snd r)) Scenario.path = None.
Proof.
  split; [vm_compute; reflexivity|].
  split; [vm_compute; tauto|].
  split; [vm_compute; reflexivity|].
  split; [vm_compute; reflexivity|].
  vm_compute; reflexivity.
Qed.

(** The same user with a 2 GiB file: the record ends up "failed" with a
    message naming the 1GB limit, the text shown ends with the upsell hint,
    and the file is removed. *)
Example free_user_large_file_rejected :
  let env := Scenario.env (Some Scenario.free_user) (2 * Scenario.GiB) None None in
  let r := run env Scenario.update Scenario.user_data ∅ in
  fst r = inr SizeRejected
  /\ map (fun d => d !! "error_message") (updates (trace (snd r)))
     = [Some (PStr "File too large (2.0GB > 1GB limit)")]
  /\ map status_of (updates (trace (snd r))) = [Some "failed"]
  /\ ends_with UPSELL_HINT
       (rejection_text env (PBool false) (2 * Scenario.GiB) FREE_MAX_SIZE) = true
  /\ In (Returned
           (StatusEditText
              (rejection_text env (PBool false) (2 * Scenario.GiB) FREE_MAX_SIZE)))
       (trace (snd r))
  /\ fs_size (files (snd r)) Scenario.path = None.
Proof.
  split; [vm_compute; reflexivity|].
  split; [vm_compute; reflexivity|].
  split; [vm_compute; reflexivity|].
  split; [vm_compute; reflexivity|].
  split; [vm_compute; tauto|].
  vm_compute; reflexivity.
Qed.

(** * Further properties of the code *)

(** ** Symbolic execution, with the further observations *)

Ltac reduce_more :=
  cbv beta iota zeta delta
    [run handle_quality_selection download deliver reject_oversized
     update_user_stats on_error after_extraction bind ret raise lift perform
     ask try_except os_path_getsize os_remove read_file ydl_extract log
     files trace fst snd app invoked raised before existsb call_of is_extract
     is_log_download is_send is_sync_user records updates upserts orb negb
     is_update is_get_settings count_calls status_texts last_event].

Ltac exec_more := reduce_more; repeat (case_step; reduce_more).

Ltac run_paths env update user_data fs :=
  let r := fresh "r" in
  let Hr := fresh "Hr" in
  let Q := fresh "Q" in
  remember (run env update user_data fs) as r eqn:Hr;
  pattern r;
  match goal with |- ?P r => set (Q := P) end;
  symmetry in Hr; revert Hr;
  open_run user_data; exec_more;
  intros <-; subst Q; cbv beta; reduce_more.

(** ** The callback data *)

Lemma starts_with_app (p s : string) :
  starts_with p s = true -> exists rest, s = p +:+ rest.
Proof.
  revert s. induction p as [|a p IH]; intros s H.
  - now exists s.
  - destruct s as [|b s]; [discriminate|].
    cbn [starts_with] in H. apply andb_true_iff in H as [Hab Hrest].
    apply Ascii.eqb_eq in Hab as ->.
    destruct (IH s Hrest) as [rest ->]. now exists rest.
Qed.

Lemma starts_with_prefix (p rest : string) : starts_with p (p +:+ rest) = true.
Proof.
  induction p as [|a p IH]; [reflexivity|].
  change (String a p +:+ rest) with (String a (p +:+ rest)).
  cbn [starts_with]. now rewrite Ascii.eqb_refl, IH.
Qed.

(** The first field does not depend on what follows the separator. *)
Lemma split_head_app (sep : ascii) (a b : string) :
  hd "" (PyStr.split sep (a +:+ String sep b)) = hd "" (PyStr.split sep a).
Proof.
  induction a as [|c a IH].
  - simpl. now rewrite Ascii.eqb_refl.
  - change (String c a +:+ String sep b) with (String c (a +:+ String sep b)).
    cbn [PyStr.split]. destruct (Ascii.eqb c sep); [reflexivity|].
    destruct (PyStr.split sep (a +:+ String sep b)) as [|w ws] eqn:E;
      [now apply split_nonempty in E|].
    destruct (PyStr.split sep a) as [|w' ws'] eqn:E';
      [now apply split_nonempty in E'|].
    cbn [hd] in *. now rewrite IH.
Qed.

Lemma selected_quality_first_field (quality url : string) :
  selected_quality (callback_token quality url)
  = inr (hd "" (PyStr.split ":" quality)).
Proof.
  unfold selected_quality, callback_token.
  change ("quality:" +:+ quality +:+ ":" +:+ PyStr.take 50 url)
    with ("quality" +:+ String ":" (quality +:+ String ":" (PyStr.take 50 url))).
  rewrite split_before_sep by reflexivity.
  pose proof (split_head_app ":" quality (PyStr.take 50 url)) as H.
  destruct (PyStr.split ":" (quality +:+ String ":" (PyStr.take 50 url)))
    as [|w ws] eqn:E; [now apply split_nonempty in E|].
  cbn [hd] in H. cbn [py_index nth_error]. now rewrite H.
Qed.

(** X1: a callback whose data matches the pattern of the registered
    handler always has a preset field, so reading [data[1]] does not raise:
    once the callback is acknowledged, the run goes on to its next call. *)
Theorem registered_callback_has_preset env update user_data fs :
  starts_with QUALITY_PATTERN_PREFIX (query_data update) = true ->
  (exists quality, selected_quality (query_data update) = inr quality)
  /\ (query_answer env = None ->
      exists ev rest,
        trace (snd (run env update user_data fs)) = Returned QueryAnswer :: ev :: rest).
Proof.
  intros Hpat. apply starts_with_app in Hpat as [rest Hdata].
  destruct (selected_quality_defined rest) as [quality Hq].
  unfold QUALITY_PATTERN_PREFIX in Hdata. rewrite <- Hdata in Hq.
  split; [now exists quality|].
  run_paths env update user_data fs; intros Hanswer; try discriminate Hanswer;
    do 2 eexists; reflexivity.
Qed.

Lemma registered_callback_has_preset_witness :
  starts_with QUALITY_PATTERN_PREFIX (query_data Scenario.update) = true
  /\ exists quality, selected_quality (query_data Scenario.update) = inr quality.
Proof.
  split; [reflexivity|].
  exact (proj1 (registered_callback_has_preset
                  (Scenario.env None 0 None None) Scenario.update ∅ ∅ eq_refl)).
Defined.

Lemma length_app_str (a b : string) :
  String.length (a +:+ b) = (String.length a + String.length b)%nat.
Proof.
  induction a as [|c a IH]; [reflexivity|].
  change (String c a +:+ b) with (String c (a +:+ b)).
  cbn [String.length]. now rewrite IH.
Qed.

Lemma take_length (n : nat) (s : string) :
  String.length (PyStr.take n s) = Nat.min n (String.length s).
Proof.
  revert s. induction n as [|n IH]; intros [|c s]; cbn [PyStr.take String.length];
    try reflexivity.
  now rewrite IH.
Qed.

Lemma take_starts (n : nat) (s : string) : starts_with (PyStr.take n s) s = true.
Proof.
  revert s. induction n as [|n IH]; intros [|c s]; cbn [PyStr.take starts_with];
    try reflexivity.
  now rewrite Ascii.eqb_refl, IH.
Qed.

Lemma take_all (n : nat) (s : string) :
  (String.length s <= n)%nat -> PyStr.take n s = s.
Proof.
  revert s. induction n as [|n IH]; intros [|c s] H; cbn [PyStr.take String.length] in *;
    try reflexivity; try lia.
  rewrite IH by lia. reflexivity.
Qed.

(** ** The keyboard *)

(** The invariant of the row-filling loop: the rows already appended hold
    three buttons each, the row being filled holds fewer than three, and
    together they are the buttons of the options seen so far, in order. *)
Lemma keyboard_rows_invariant url options keyboard row :
  Forall (fun r => length r = 3%nat) keyboard ->
  (length row < 3)%nat ->
  let '(keyboard', row') := keyboard_rows url options keyboard row in
  Forall (fun r => length r = 3%nat) keyboard'
  /\ (length row' < 3)%nat
  /\ concat keyboard' ++ row'
     = concat keyboard ++ row ++ map (quality_button url) options.
Proof.
  revert keyboard row.
  induction options as [|quality options IH]; intros keyboard row Hkb Hrow.
  - cbn [keyboard_rows map]. rewrite app_nil_r. auto.
  - cbn [keyboard_rows map].
    fold (quality_button url quality).
    destruct (Nat.eqb_spec (length (row ++ [quality_button url quality])) 3)
      as [Hfull|Hpart].
    + specialize (IH (keyboard ++ [row ++ [quality_button url quality]]) []).
      destruct (keyboard_rows url options
                  (keyboard ++ [row ++ [quality_button url quality]]) [])
        as [keyboard' row'].
      destruct IH as (H1 & H2 & H3).
      * apply Forall_app. split; [exact Hkb|]. constructor; [exact Hfull|constructor].
      * cbn [length]. lia.
      * split; [exact H1|]. split; [exact H2|].
        rewrite H3, concat_app. cbn [concat app]. rewrite app_nil_r.
        rewrite <- !app_assoc. reflexivity.
    + specialize (IH keyboard (row ++ [quality_button url quality])).
      destruct (keyboard_rows url options keyboard
                  (row ++ [quality_button url quality])) as [keyboard' row'].
      destruct IH as (H1 & H2 & H3).
      * exact Hkb.
      * rewrite length_app in *. cbn [length] in *. lia.
      * split; [exact H1|]. split; [exact H2|].
        rewrite H3. rewrite <- !app_assoc. reflexivity.
Qed.

(** X2: whatever the list of options, the loop of [get_quality_keyboard]
    packs their buttons, in order, into rows of exactly three, and leaves
    at most two buttons for a last, shorter row. *)
Theorem keyboard_rows_of_three url options :
  let '(keyboard, row) := keyboard_rows url options [] [] in
  Forall (fun r => length r = 3%nat) keyboard
  /\ (length row < 3)%nat
  /\ concat keyboard ++ row = map (quality_button url) options
  /\ (length options = 3 * length keyboard + length row)%nat.
Proof.
  pose proof (keyboard_rows_invariant url options [] []) as H.
  destruct (keyboard_rows url options [] []) as [keyboard row].
  destruct H as (H1 & H2 & H3); [constructor|cbn; lia|].
  cbn [concat app] in H3.
  split; [exact H1|]. split; [exact H2|]. split; [exact H3|].
  apply (f_equal (@length _)) in H3.
  rewrite length_app, length_map in H3. rewrite <- H3.
  clear H3 H2. induction H1 as [|r keyboard Hr _ IH]; [reflexivity|].
  cbn [concat length]. rewrite length_app, Hr. lia.
Qed.

(** X3: for every URL the keyboard has three rows of three quality buttons
    and a last row with the audio button; every button carries callback data
    of at most 64 characters that starts with "quality:", the pattern of the
    registered callback handler, and that names the button's own preset. *)
Theorem keyboard_buttons_are_routable (url : string) :
  map (@length _) (get_quality_keyboard url) = [3; 3; 3; 1]%nat
  /\ map text (concat (get_quality_keyboard url))
     = QUALITY_OPTIONS ++ ["üéµ Audio Only (MP3)"]
  /\ Forall
       (fun b =>
          starts_with QUALITY_PATTERN_PREFIX (callback_data b) = true
          /\ (String.length (callback_data b) <= 64)%nat
          /\ exists quality,
               In quality (QUALITY_OPTIONS ++ ["audio"])
               /\ callback_data b = callback_token quality url
               /\ selected_quality (callback_data b) = inr quality)
       (concat (get_quality_keyboard url)).
Proof.
  split; [reflexivity|]. split; [reflexivity|].
  assert (Hlen : forall quality,
             In quality (QUALITY_OPTIONS ++ ["audio"]) ->
             (String.length (callback_token quality url) <= 64)%nat).
  { intros quality Hin. unfold callback_token.
    rewrite !length_app_str, take_length.
    cbn [QUALITY_OPTIONS app In] in Hin.
    repeat (destruct Hin as [<-|Hin]; [cbn [String.length]; lia|]).
    contradiction. }
  assert (Hbutton : forall quality,
             In quality (QUALITY_OPTIONS ++ ["audio"]) ->
             PyStr.mem ":" quality = false).
  { intros quality Hin. cbn [QUALITY_OPTIONS app In] in Hin.
    repeat (destruct Hin as [<-|Hin]; [reflexivity|]). contradiction. }
  assert (Hone : forall label quality,
             In quality (QUALITY_OPTIONS ++ ["audio"]) ->
             starts_with QUALITY_PATTERN_PREFIX
               (callback_data {| text := label; callback_data := callback_token quality url |})
             = true
             /\ (String.length
                   (callback_data
                      {| text := label; callback_data := callback_token quality url |})
                 <= 64)%nat
             /\ exists quality',
                  In quality' (QUALITY_OPTIONS ++ ["audio"])
                  /\ callback_data
                       {| text := label; callback_data := callback_token quality url |}
                     = callback_token quality' url
                  /\ selected_quality
                       (callback_data
                          {| text := label; callback_data := callback_token quality url |})
                     = inr quality').
  { intros label quality Hin. cbn [callback_data].
    split; [apply starts_with_prefix|]. split; [now apply Hlen|].
    exists quality. split; [exact Hin|]. split; [reflexivity|].
    now apply selected_quality_token, Hbutton. }
  cbv [get_quality_keyboard keyboard_rows QUALITY_OPTIONS length Nat.eqb app concat].
  repeat (apply List.Forall_cons; [apply Hone; cbn; tauto|]).
  apply List.Forall_nil.
Qed.

(** X4: the handler reads the callback data only for its preset field. Two
    callbacks of the same user with the same preset give the same run; in
    particular the URL prefix carried by the token plays no part. *)
Theorem run_ignores_token_url env update1 update2 user_data fs :
  effective_user_id update1 = effective_user_id update2 ->
  selected_quality (query_data update1) = selected_quality (query_data update2) ->
  run env update1 user_data fs = run env update2 user_data fs.
Proof.
  intros Hid Hq. unfold run, handle_quality_selection.
  rewrite Hid, Hq. reflexivity.
Qed.

Lemma run_ignores_token_url_witness :
  let env := Scenario.env (Some Scenario.free_user) (300 * Scenario.MiB) None None in
  let other :=
    {| query_data := callback_token "720p" "https://example.com/another";
       effective_user_id := 7 |} in
  selected_quality (query_data Scenario.update) = selected_quality (query_data other)
  /\ run env Scenario.update Scenario.user_data ∅ = run env other Scenario.user_data ∅.
Proof.
  split; [reflexivity|].
  apply (run_ignores_token_url
           (Scenario.env (Some Scenario.free_user) (300 * Scenario.MiB) None None)
           Scenario.update
           {| query_data := callback_token "720p" "https://example.com/another";
              effective_user_id := 7 |}
           Scenario.user_data ∅); reflexivity.
Defined.

(** ** Truncation and file names *)

Lemma mem_app_sep (sep : ascii) (a b : string) :
  PyStr.mem sep (a +:+ String sep b) = true.
Proof.
  induction a as [|c a IH].
  - simpl. now rewrite Ascii.eqb_refl.
  - change (String c a +:+ String sep b) with (String c (a +:+ String sep b)).
    cbn [PyStr.mem]. rewrite IH. apply orb_true_r.
Qed.

Lemma rsplit1_head_app (sep : ascii) (base ext : string) :
  PyStr.mem sep ext = false ->
  PyStr.rsplit1_head sep (base +:+ String sep ext) = base.
Proof.
  intros Hext. induction base as [|c base IH].
  - simpl. now rewrite Ascii.eqb_refl, Hext.
  - change (String c base +:+ String sep ext)
      with (String c (base +:+ String sep ext)).
    cbn [PyStr.rsplit1_head]. rewrite mem_app_sep, andb_false_r, IH. reflexivity.
Qed.

Lemma rsplit1_head_no_sep (sep : ascii) (s : string) :
  PyStr.mem sep s = false -> PyStr.rsplit1_head sep s = s.
Proof.
  induction s as [|c s IH]; [reflexivity|].
  cbn [PyStr.mem PyStr.rsplit1_head]. intros H.
  apply orb_false_elim in H as [Hc Hs]. now rewrite Hc, (IH Hs).
Qed.

(** Keeps the cases of a membership in a concrete trace in which the
    extraction returned. *)
Ltac pick_extraction H :=
  cbn [In] in H;
  repeat match type of H with
         | _ \/ _ => destruct H as [H|H]
         end;
  first [ discriminate H | contradiction H | injection H as ? ?; subst ].

(** Closes a membership in a concrete trace. *)
Ltac find_event :=
  cbn [In]; repeat first [left; reflexivity | right].

(** Splits a membership in a concrete trace into its cases. *)
Ltac each_event H :=
  cbn [In] in H;
  repeat match type of H with
         | _ \/ _ => destruct H as [H|H]
         end;
  first [ contradiction H | subst ].

(** X5: after the extraction has returned a prepared file name, the file
    the handler measures, sends and removes is, for an audio selection, the
    prepared name with its last extension replaced by [.mp3] (with [.mp3]
    appended when the name has no dot), and the prepared name itself for
    every other selection. When the extraction left no file of that name,
    the handler enters its [except] block with the [FileNotFoundError] of
    that name and sends nothing; when it left one, a send call carries
    that file. *)
Theorem audio_file_name :
  (forall base ext,
      PyStr.mem "." ext = false ->
      media_filename "audio" (base +:+ "." +:+ ext) = base +:+ ".mp3")
  /\ (forall name,
        PyStr.mem "." name = false ->
        media_filename "audio" name = name +:+ ".mp3")
  /\ (forall quality name, quality <> "audio" -> media_filename quality name = name)
  /\ (forall env update user_data fs url opts,
        let r := run env update user_data fs in
        let t := trace (snd r) in
        In (Returned (ExtractInfo url opts)) t ->
        exists quality info prepared files_after,
          selected_quality (query_data update) = inr quality
          /\ extract_info env url opts fs = ExtractedMedia info prepared files_after
          /\ match fs_size files_after (media_filename quality prepared) with
             | None =>
                 In (Returned
                       (LoggerError
                          ("Download error: "
                             +:+ exn_str
                                   (FileNotFoundError (media_filename quality prepared)))))
                   t
                 /\ invoked is_send t = false
                 /\ files (snd r) = files_after
             | Some file_size =>
                 (forall ev,
                     In ev t -> is_send (call_of ev) = true ->
                     sent_file (call_of ev)
                     = Some (FileBytes (media_filename quality prepared) file_size))
                 /\ (files (snd r) = files_after
                     \/ files (snd r)
                        = fs_remove (media_filename quality prepared) files_after)
             end).
Proof.
  split; [|split; [|split]].
  - intros base ext Hext. unfold media_filename. cbn [is_audio String.eqb Ascii.eqb].
    change (base +:+ "." +:+ ext) with (base +:+ String "." ext).
    now rewrite (rsplit1_head_app "." base ext Hext).
  - intros name Hname. unfold media_filename.
    change (is_audio "audio") with true. cbv iota.
    now rewrite (rsplit1_head_no_sep "." name Hname).
  - intros quality name Hne. unfold media_filename, is_audio.
    now rewrite (proj2 (String.eqb_neq _ _) Hne).
  - intros env update user_data fs url opts r t. subst t r.
    run_paths env update user_data fs; intros Hin; pick_extraction Hin.
    all: do 4 eexists; (split; [reflexivity|]); (split; [eassumption|]).
    all: match goal with
         | H : fs_size _ _ = _ |- _ => rewrite H
         end.
    all: repeat match goal with
                | |- _ /\ _ => split
                end.
    all: first [ reflexivity
               | left; reflexivity
               | right; reflexivity
               | solve [find_event]
               | intros ev Hev Hsend; each_event Hev; cbv beta iota in *;
                 first [discriminate Hsend | reflexivity] ].
Qed.

(** X6: the error text stored in the record is the start of [str(e)], cut
    at 500 characters, and is [str(e)] itself when that is short enough;
    the text shown to the user ends with at most 100 characters of it. *)
Theorem error_message_is_truncated (e : exn) :
  error_data e !! "error_message" = Some (PStr (PyStr.take 500 (exn_str e)))
  /\ (String.length (PyStr.take 500 (exn_str e)) <= 500)%nat
  /\ starts_with (PyStr.take 500 (exn_str e)) (exn_str e) = true
  /\ ((String.length (exn_str e) <= 500)%nat -> PyStr.take 500 (exn_str e) = exn_str e)
  /\ (forall error_msg,
        ends_with (PyStr.take 100 (exn_str e)) (error_text error_msg e) = true
        /\ (String.length (PyStr.take 100 (exn_str e)) <= 100)%nat
        /\ starts_with (PyStr.take 100 (exn_str e)) (exn_str e) = true).
Proof.
  split; [reflexivity|].
  split; [rewrite take_length; lia|].
  split; [apply take_starts|].
  split; [apply take_all|].
  intros error_msg. split.
  - unfold error_text. rewrite <- !app_assoc_str. apply ends_with_app.
  - split; [rewrite take_length; lia|apply take_starts].
Qed.

(** ** What a run never does *)

(** Builds the checkpoint of a path from the equations in the context and
    proves that the run reaches it. *)
Ltac with_checkpoint :=
  eexists (Build_checkpoint _ _ _ _ _ _ _ _ _);
  split;
  [ constructor;
    unfold cp_filename, cp_download_data;
    cbn [cp_quality cp_url cp_db_user cp_record cp_sel cp_info cp_prepared
         cp_files cp_file_size];
    repeat match goal with
           | H : is_audio _ = _ |- _ => rewrite H
           end;
    eassumption
  | unfold cp_trace, delivery_call, cp_file_data, cp_filename, cp_max_size,
      cp_is_premium, cp_title, cp_download_data;
    cbn [cp_quality cp_url cp_db_user cp_record cp_sel cp_info cp_prepared
         cp_files cp_file_size];
    repeat match goal with
           | H : is_audio _ = _ |- _ => rewrite H
           end ].

(** X7: a run extracts at most once, creates at most one record and sends
    at most one file; it issues a send call only after the size check has
    accepted the file, right after the upload notice, and what it sends is
    the file it measured. *)
Theorem send_only_after_accepted_size env update user_data fs :
  let r := run env update user_data fs in
  let t := trace (snd r) in
  (count_calls is_extract t <= 1)%nat
  /\ (count_calls is_log_download t <= 1)%nat
  /\ (count_calls is_send t <= 1)%nat
  /\ (invoked is_send t = true ->
      exists c,
        reaches_size_check env update user_data fs c
        /\ cp_file_size c <= cp_max_size c
        /\ exists ev rest,
             t = cp_trace update user_data c
                 ++ Returned (StatusEditText UPLOADING_TEXT) :: ev :: rest
             /\ call_of ev = delivery_call c).
Proof.
  intros r t. subst t r.
  run_paths env update user_data fs;
    (split; [lia|]); (split; [lia|]); (split; [lia|]);
    intros Hsend; try discriminate Hsend.
  all: with_checkpoint;
    (split; [unfold too_large in *; lia|]);
    do 2 eexists; split; reflexivity.
Qed.

(** X8: the handler writes no local file itself, and the only file it
    removes is the one it looks for after the extraction. A run in which the
    extraction is not called leaves the files as it found them. Otherwise
    the files at the end are those the extraction left, also when it raised,
    as the [except] block removes nothing; only when the extraction returned
    may the file the handler looks for be removed in addition, and it is
    removed whenever the run ends at [Completed] or [SizeRejected]. *)
Theorem run_touches_only_its_file env update user_data fs :
  let r := run env update user_data fs in
  let url := default "" (user_data !! "pending_url") in
  (invoked is_extract (trace (snd r)) = false -> files (snd r) = fs)
  /\ (invoked is_extract (trace (snd r)) = true ->
      exists quality sel,
        selected_quality (query_data update) = inr quality
        /\ decode quality = inr sel
        /\ match extract_info env url (opts_for (effective_user_id update) sel) fs with
           | ExtractionError e files_after => files (snd r) = files_after
           | ExtractedMedia info prepared files_after =>
               (files (snd r) = files_after
                \/ files (snd r)
                   = fs_remove (media_filename quality prepared) files_after)
               /\ (fst r = inr Completed \/ fst r = inr SizeRejected ->
                   files (snd r)
                   = fs_remove (media_filename quality prepared) files_after)
           end)
  /\ (forall p,
        fs_size (files (snd r)) p <> fs_size fs p ->
        exists quality sel,
          selected_quality (query_data update) = inr quality
          /\ decode quality = inr sel
          /\ match extract_info env url (opts_for (effective_user_id update) sel) fs with
             | ExtractionError e files_after => fs_size files_after p <> fs_size fs p
             | ExtractedMedia info prepared files_after =>
                 fs_size files_after p <> fs_size fs p
                 \/ p = media_filename quality prepared
             end).
Proof.
  intros r url.
  match goal with
  | |- ?A /\ ?B /\ _ => assert (Hshape : A /\ B)
  end.
  { subst r url.
    run_paths env update user_data fs;
      (split; [intros Hno; first [reflexivity | discriminate Hno]|]);
      intros Hyes; try discriminate Hyes;
      do 2 eexists; cbn [default from_option id];
      (split; [reflexivity|]); (split; [eassumption|]);
      match goal with
      | H : extract_info _ _ _ _ = _ |- _ => rewrite H
      end;
      repeat match goal with
             | |- _ /\ _ => split
             | |- _ -> _ => intros [?|?]
             end;
      first [ reflexivity | discriminate | left; reflexivity | right; reflexivity ]. }
  destruct Hshape as [Hnone Hsome].
  split; [exact Hnone|]. split; [exact Hsome|].
  intros p Hp.
  destruct (invoked is_extract (trace (snd r))) eqn:Hcalled.
  - destruct (Hsome eq_refl) as (quality & sel & Hq & Hd & Hfiles).
    exists quality, sel. split; [exact Hq|]. split; [exact Hd|].
    destruct (extract_info env url (opts_for (effective_user_id update) sel) fs)
      as [e files_after|info prepared files_after].
    + now rewrite Hfiles in Hp.
    + destruct Hfiles as [[Hfiles|Hfiles] _]; rewrite Hfiles in Hp; [now left|].
      destruct (decide (p = media_filename quality prepared)) as [->|Hname];
        [now right|left].
      unfold fs_size, fs_remove in *. now rewrite lookup_delete_ne in Hp by congruence.
  - rewrite (Hnone eq_refl) in Hp. contradiction.
Qed.

(** Keeps the cases of a membership in a concrete trace that are not
    refuted by the constructors. *)
Ltac pick_event H :=
  cbn [In] in H;
  repeat match type of H with
         | _ \/ _ => destruct H as [H|H]
         end;
  first [ discriminate H | contradiction H | injection H as ? ? ?; subst ].

Ltac close_failed :=
  repeat match goal with
         | |- _ /\ _ => split
         | |- forall _, _ => intro
         | |- _ -> _ => intro
         end;
  first [ discriminate
        | congruence
        | reflexivity
        | left; reflexivity
        | right; reflexivity
        | match goal with H : _ \/ _ |- _ => destruct H; discriminate end
        | eexists; reflexivity
        | eexists; split; [first [reflexivity | eassumption]|reflexivity] ].

(** X9: when the extraction raises [e], nothing is sent and no counter is
    touched, and the files are left as the failed extraction left them: the
    [except] block removes nothing. The handler can only end at [Failed e],
    and then the record has been updated exactly once, to "failed" with the
    error text, and the last thing shown to the user is the failure text,
    built from the [error_message] setting or its default. When the update
    or the settings lookup of the [except] block raises instead, the
    handler raises too and the user is left with the "Downloading"
    notice. *)
Theorem extraction_failure_is_reported env update user_data fs url opts e :
  In (Raised (ExtractInfo url opts) e) (trace (snd (run env update user_data fs))) ->
  let r := run env update user_data fs in
  let t := trace (snd r) in
  invoked is_send t = false
  /\ invoked is_sync_user t = false
  /\ (exists files_after,
        extract_info env url opts fs = ExtractionError e files_after
        /\ files (snd r) = files_after)
  /\ (forall o, fst r = inr o -> o = Failed e)
  /\ (updates t = [] \/ updates t = [error_data e])
  /\ (fst r = inr (Failed e) ->
      updates t = [error_data e]
      /\ exists settings,
           get_settings env = inr settings
           /\ last_event t = Some (Returned (StatusEditText (shown_error_text settings e))))
  /\ (raised is_update t = true \/ raised is_get_settings t = true ->
      status_texts t = [DOWNLOADING_TEXT] /\ exists e', fst r = inl e').
Proof.
  intros Hin r t. subst t r. revert Hin. unfold shown_error_text.
  run_paths env update user_data fs; intros Hin; pick_event Hin.
  all: close_failed.
Qed.

Lemma extraction_failure_is_reported_witness :
  let e := Error "Video unavailable" in
  let part := "/tmp/7_Clip.mp4.part" in
  let env :=
    with_extraction (ExtractionError e (fs_write part 1024 ∅))
      (Scenario.env (Some Scenario.free_user) 0 None None) in
  let r := run env Scenario.update Scenario.user_data ∅ in
  In (Raised (ExtractInfo Scenario.url (opts_for 7 (VideoHeightCap 720))) e)
    (trace (snd r))
  /\ fst r = inr (Failed e)
  /\ updates (trace (snd r)) = [error_data e]
  /\ fs_size (files (snd r)) part = Some 1024.
Proof.
  assert (Hin :
            In (Raised (ExtractInfo Scenario.url (opts_for 7 (VideoHeightCap 720)))
                  (Error "Video unavailable"))
              (trace
                 (snd
                    (run
                       (with_extraction
                          (ExtractionError (Error "Video unavailable")
                             (fs_write "/tmp/7_Clip.mp4.part" 1024 ∅))
                          (Scenario.env (Some Scenario.free_user) 0 None None))
                       Scenario.update Scenario.user_data ∅))))
    by (vm_compute; tauto).
  pose proof (extraction_failure_is_reported _ _ _ _ _ _ _ Hin) as H.
  cbv zeta in H.
  destruct H as (_ & _ & (files_after & Hleft & Hfiles) & _ & _ & Hout & _).
  split; [exact Hin|].
  assert (Hdone :
            fst (run
                   (with_extraction
                      (ExtractionError (Error "Video unavailable")
                         (fs_write "/tmp/7_Clip.mp4.part" 1024 ∅))
                      (Scenario.env (Some Scenario.free_user) 0 None None))
                   Scenario.update Scenario.user_data ∅)
            = inr (Failed (Error "Video unavailable")))
    by (vm_compute; reflexivity).
  split; [exact Hdone|]. split; [exact (proj1 (Hout Hdone))|].
  cbv beta iota delta [extract_info with_extraction] in Hleft.
  injection Hleft as <-. rewrite Hfiles. apply fs_size_write.
Defined.

(** X10: a preset outside the vocabulary fails in the height lookup, inside
    the [try] block: the record has already been created, with the unknown
    preset as its quality; the extraction is never called, nothing is sent
    and no file is touched, and when the handler returns from the [except]
    block the record has been updated once, to "failed". *)
Theorem unknown_preset_fails_before_extraction env update user_data fs quality :
  selected_quality (query_data update) = inr quality ->
  ~ In quality (QUALITY_OPTIONS ++ ["audio"]) ->
  let r := run env update user_data fs in
  let t := trace (snd r) in
  invoked is_extract t = false
  /\ invoked is_send t = false
  /\ invoked is_sync_user t = false
  /\ files (snd r) = fs
  /\ (records t = []
      \/ exists data,
           records t = [data]
           /\ data !! "quality" = Some (PStr quality)
           /\ status_of data = Some "downloading")
  /\ (forall o, fst r = inr o ->
      o = SessionExpired \/ o = BanCheckFailed \/ o = Failed (KeyError quality))
  /\ (fst r = inr (Failed (KeyError quality)) ->
      exists data,
        records t = [data]
        /\ updates t = [error_data (KeyError quality)]
        /\ status_of (error_data (KeyError quality)) = Some "failed").
Proof.
  intros Hsel Hnot r t. subst t r.
  pose proof (decode_unknown quality Hnot) as Hdecode.
  run_paths env update user_data fs.
  all: repeat match goal with
         | |- _ /\ _ => split
         | |- forall _, _ => intro
         | |- _ -> _ => intro
         end;
       first [ discriminate
             | congruence
             | reflexivity
             | left; reflexivity
             | left; congruence
             | right; left; congruence
             | right; right; congruence
             | right; eexists; split; [reflexivity|]; split; reflexivity
             | eexists; split; [reflexivity|]; split; reflexivity ].
Qed.

Lemma unknown_preset_fails_before_extraction_witness :
  let update :=
    {| query_data := callback_token "4320p" Scenario.url; effective_user_id := 7 |} in
  let env := Scenario.env (Some Scenario.free_user) (300 * Scenario.MiB) None None in
  let r := run env update Scenario.user_data ∅ in
  selected_quality (query_data update) = inr "4320p"
  /\ fst r = inr (Failed (KeyError "4320p"))
  /\ invoked is_extract (trace (snd r)) = false
  /\ map status_of (records (trace (snd r))) = [Some "downloading"].
Proof.
  assert (Hnot : ~ In "4320p" (QUALITY_OPTIONS ++ ["audio"])).
  { cbn. intros H. repeat (destruct H as [H|H]; [discriminate H|]). exact H. }
  pose proof (unknown_preset_fails_before_extraction
                (Scenario.env (Some Scenario.free_user) (300 * Scenario.MiB) None None)
                {| query_data := callback_token "4320p" Scenario.url;
                   effective_user_id := 7 |}
                Scenario.user_data ∅ "4320p" eq_refl Hnot) as H.
  cbv zeta in H. destruct H as (Hext & _).
  split; [reflexivity|]. split; [vm_compute; reflexivity|].
  split; [exact Hext|vm_compute; reflexivity].
Defined.

(** X11: once the send call has returned, either every later step returns
    and the run completes, with the file removed, or the file stays on disk
    and the handler, when it returns, has marked the record "failed" last and
    has last told the user that the download failed, although the file was
    delivered. *)
Theorem delivered_then_completed_or_failed env update user_data fs c :
  reaches_size_check env update user_data fs c ->
  cp_file_size c <= cp_max_size c ->
  status_edit_text env UPLOADING_TEXT = None ->
  delivery_response env c = None ->
  let r := run env update user_data fs in
  let t := trace (snd r) in
  In (Returned (delivery_call c)) t
  /\ ((fst r = inr Completed
       /\ fs_size (files (snd r)) (cp_filename c) = None
       /\ updates t = [completed_data (cp_title c) (cp_file_size c) (cp_duration c)])
      \/ (fs_size (files (snd r)) (cp_filename c) = Some (cp_file_size c)
          /\ fst r <> inr Completed
          /\ forall o, fst r = inr o ->
             exists e settings before,
               o = Failed e
               /\ updates t = before ++ [error_data e]
               /\ get_settings env = inr settings
               /\ last_event t
                  = Some (Returned (StatusEditText (shown_error_text settings e))))).
Proof.
  intros Hreach Hsize Hupload Hsend r t. subst t.
  assert (Hok : too_large (cp_file_size c) (cp_max_size c) = false)
    by (unfold too_large; lia).
  subst r. rewrite (run_from_checkpoint _ _ _ _ _ Hreach).
  destruct Hreach as [_ _ _ _ _ _ _ _ _ _ _ Hfile].
  unfold delivery_response, delivery_call, cp_file_data, cp_trace, cp_duration,
    shown_error_text in *.
  exec_more.
  all: (split; [cbn [In]; tauto|]).
  all: first
         [ left; split; [reflexivity|]; split; [apply fs_size_remove|reflexivity]
         | right; split; [exact Hfile|]; split; [congruence|];
           intros o Ho; try discriminate Ho;
           injection Ho as <-;
           do 2 eexists;
           first [ exists []; split; [reflexivity|]; split; [reflexivity|];
                   split; reflexivity
                 | eexists [_]; split; [reflexivity|]; split; [reflexivity|];
                   split; reflexivity ] ].
Qed.

Lemma delivered_then_completed_or_failed_witness :
  let e := Error "Service unavailable" in
  let env := Scenario.env (Some Scenario.free_user) (300 * Scenario.MiB) None (Some e) in
  let c := Scenario.at_size_check (Some Scenario.free_user) (300 * Scenario.MiB) in
  let r := run env Scenario.update Scenario.user_data ∅ in
  reaches_size_check env Scenario.update Scenario.user_data ∅ c
  /\ delivery_response env c = None
  /\ In (Returned (delivery_call c)) (trace (snd r))
  /\ fst r = inr (Failed e)
  /\ fs_size (files (snd r)) Scenario.path = Some (300 * Scenario.MiB).
Proof.
  pose proof (scenario_reaches (Some Scenario.free_user) (300 * Scenario.MiB)
                None (Some (Error "Service unavailable")) eq_refl) as Hreach.
  assert (Hsize :
            cp_file_size
              (Scenario.at_size_check (Some Scenario.free_user) (300 * Scenario.MiB))
            <= cp_max_size
                 (Scenario.at_size_check (Some Scenario.free_user) (300 * Scenario.MiB)))
    by (vm_compute; discriminate).
  pose proof (delivered_then_completed_or_failed _ _ _ _ _ Hreach Hsize
                eq_refl eq_refl) as H.
  cbv zeta in H. destruct H as [Hin H].
  split; [exact Hreach|]. split; [reflexivity|]. split; [exact Hin|].
  split; [vm_compute; reflexivity|].
  destruct H as [(Hdone & _)|(Hfile & _)]; [|exact Hfile].
  exfalso. vm_compute in Hdone. discriminate Hdone.
Defined.

(** ** The message and command handlers *)

Ltac reduce_cmd :=
  cbv beta iota zeta delta
    [serve handle_url start help_command premium_command stats broadcast
     cmd_bind cmd_ret cmd_lift dashboard_do dashboard_ask reply store note
     context_user_data journal fst snd app reply_of replies dashboard_events
     data_gb_text negb].

Ltac exec_cmd := reduce_cmd; repeat (case_step; reduce_cmd).

(** *** [strip] *)

Lemma lstrip_visible (s : string) : has_visible (lstrip s) = has_visible s.
Proof.
  induction s as [|c s IH]; [reflexivity|].
  cbn [lstrip has_visible]. destruct (py_isspace c) eqn:E; cbn [negb orb].
  - exact IH.
  - cbn [has_visible]. now rewrite E.
Qed.

Lemma rstrip_empty (s : string) : rstrip s = "" -> has_visible s = false.
Proof.
  induction s as [|c s IH]; [reflexivity|].
  cbn [rstrip has_visible]. destruct (rstrip s) as [|c' r].
  - destruct (py_isspace c); [|discriminate]. intros _. now apply IH.
  - discriminate.
Qed.

Lemma strip_empty (s : string) : strip s = "" -> has_visible s = false.
Proof.
  unfold strip. intros H. apply rstrip_empty in H. now rewrite lstrip_visible in H.
Qed.

Lemma starts_with_visible (c : ascii) (sub s : string) :
  py_isspace c = false -> starts_with (String c sub) s = true -> has_visible s = true.
Proof.
  intros Hc H. destruct s as [|b s]; [discriminate|].
  cbn [starts_with] in H. apply andb_true_iff in H as [Hb _].
  apply Ascii.eqb_eq in Hb as <-. cbn [has_visible]. now rewrite Hc.
Qed.

Lemma contains_visible (c : ascii) (sub s : string) :
  py_isspace c = false -> contains (String c sub) s = true -> has_visible s = true.
Proof.
  intros Hc. induction s as [|b s IH]; intros H.
  - discriminate.
  - change (contains (String c sub) (String b s))
      with (starts_with (String c sub) (String b s) || contains (String c sub) s) in H.
    apply orb_true_iff in H as [H|H].
    + now apply (starts_with_visible c sub).
    + cbn [has_visible]. rewrite (IH H). apply orb_true_r.
Qed.

(** A text that passes the filter of the message handler is not blank. *)
Lemma filtered_text_not_blank (text : string) :
  url_filter text = true -> strip text <> "".
Proof.
  unfold url_filter. intros H Hempty. apply strip_empty in Hempty.
  apply orb_true_iff in H as [H|H];
    apply (contains_visible "h") in H; try reflexivity; congruence.
Qed.

(** [strip] removes white space at both ends and nothing else. *)
Lemma lstrip_decompose (s : string) :
  exists a, s = a +:+ lstrip s /\ has_visible a = false.
Proof.
  induction s as [|c s (a & Ha & Hspace)].
  - now exists "".
  - cbn [lstrip]. destruct (py_isspace c) eqn:E.
    + exists (String c a). split.
      * change (String c a +:+ lstrip s) with (String c (a +:+ lstrip s)).
        now rewrite <- Ha.
      * cbn [has_visible]. now rewrite E.
    + now exists "".
Qed.

Lemma rstrip_decompose (s : string) :
  exists b, s = rstrip s +:+ b /\ has_visible b = false.
Proof.
  induction s as [|c s (b & Hb & Hspace)].
  - now exists "".
  - cbn [rstrip]. destruct (rstrip s) as [|c' r] eqn:E.
    + destruct (py_isspace c) eqn:Ec.
      * exists (String c s). split; [reflexivity|].
        cbn [has_visible]. rewrite Ec. cbn [negb orb].
        now apply rstrip_empty.
      * exists b. split; [|exact Hspace].
        change (String c "" +:+ b) with (String c ("" +:+ b)). now rewrite <- Hb.
    + exists b. split; [|exact Hspace].
      change (String c (String c' r) +:+ b) with (String c (String c' r +:+ b)).
      now rewrite <- Hb.
Qed.

Lemma strip_decompose (s : string) :
  exists a b,
    s = a +:+ strip s +:+ b /\ has_visible a = false /\ has_visible b = false.
Proof.
  destruct (lstrip_decompose s) as (a & Ha & Hspace_a).
  destruct (rstrip_decompose (lstrip s)) as (b & Hb & Hspace_b).
  exists a, b. unfold strip. now rewrite <- Hb, <- Ha.
Qed.

Lemma lstrip_head (s : string) :
  lstrip s = "" \/ exists c r, lstrip s = String c r /\ py_isspace c = false.
Proof.
  induction s as [|c s IH]; [now left|].
  cbn [lstrip]. destruct (py_isspace c) eqn:E; [exact IH|].
  right. now exists c, s.
Qed.

Lemma rstrip_idem (s : string) : rstrip (rstrip s) = rstrip s.
Proof.
  induction s as [|c s IH]; [reflexivity|].
  cbn [rstrip]. destruct (rstrip s) as [|c' r] eqn:E.
  - destruct (py_isspace c) eqn:Ec; [reflexivity|].
    cbn [rstrip]. now rewrite Ec.
  - change (rstrip (String c (String c' r)))
      with (match rstrip (String c' r) with
            | EmptyString => if py_isspace c then EmptyString else String c EmptyString
            | String c'' r' => String c (String c'' r')
            end).
    now rewrite IH.
Qed.

Lemma rstrip_keeps_head (c : ascii) (s : string) :
  py_isspace c = false -> exists r, rstrip (String c s) = String c r.
Proof.
  intros Hc. cbn [rstrip]. destruct (rstrip s) as [|c' r].
  - rewrite Hc. now exists "".
  - now exists (String c' r).
Qed.

(** The stripped text has no white space left at either end. *)
Lemma strip_trimmed (s : string) :
  lstrip (strip s) = strip s /\ rstrip (strip s) = strip s.
Proof.
  unfold strip. split; [|apply rstrip_idem].
  destruct (lstrip_head s) as [->|(c & r & -> & Hc)]; [reflexivity|].
  destruct (rstrip_keeps_head c r Hc) as [r' ->].
  cbn [lstrip]. now rewrite Hc.
Qed.

(** *** [handle_url] *)

(** What [handle_url] leaves in the session. *)
Lemma handle_url_session bot utcnow update (user_data : gmap string string) :
  let url := strip (message_text update) in
  let r := serve (handle_url bot utcnow update) user_data in
  let stored := context_user_data (snd r) in
  match sync_user (dashboard bot) (active_data utcnow (effective_user update)) with
  | Some e =>
      fst r = inl e /\ stored = user_data /\ replies (journal (snd r)) = []
  | None =>
      stored !! "pending_url" = Some url
      /\ stored !! "platform" = Some (detect_platform url)
      /\ (forall key,
            key <> "pending_url" -> key <> "platform" ->
            stored !! key = user_data !! key)
      /\ replies (journal (snd r))
         = [markdown (PStr (detected_text (detect_platform url)))
              (Some (get_quality_keyboard url))]
      /\ fst r
         = match reply_text bot
                   (markdown (PStr (detected_text (detect_platform url)))
                      (Some (get_quality_keyboard url))) with
           | Some e => inl e
           | None => inr tt
           end
  end.
Proof.
  intros url r stored. subst stored r url. exec_cmd.
  all: repeat split; try reflexivity.
  all: try (rewrite lookup_insert_ne by discriminate; apply lookup_insert_eq).
  all: try apply lookup_insert_eq.
  all: intros key H1 H2; rewrite !lookup_insert_ne by congruence; reflexivity.
Qed.

(** X12: [handle_url] keeps the message text without the white space around
    it as the pending URL, with the platform detected for it, and leaves
    every other key of the user's data alone; a newer URL replaces the
    pending one. The two values are stored before the reply is sent, so they
    are kept even when the reply raises; when the upsert that comes first
    raises, nothing is stored and nothing is sent. *)
Theorem handle_url_stores_selection bot utcnow update
    (user_data : gmap string string) :
  let url := strip (message_text update) in
  let r := serve (handle_url bot utcnow update) user_data in
  let stored := context_user_data (snd r) in
  (exists before after,
      message_text update = before +:+ url +:+ after
      /\ has_visible before = false /\ has_visible after = false
      /\ lstrip url = url /\ rstrip url = url)
  /\ match sync_user (dashboard bot) (active_data utcnow (effective_user update)) with
     | Some e =>
         fst r = inl e /\ stored = user_data /\ replies (journal (snd r)) = []
     | None =>
         stored !! "pending_url" = Some url
         /\ stored !! "platform" = Some (detect_platform url)
         /\ (forall key,
               key <> "pending_url" -> key <> "platform" ->
               stored !! key = user_data !! key)
         /\ replies (journal (snd r))
            = [markdown (PStr (detected_text (detect_platform url)))
                 (Some (get_quality_keyboard url))]
         /\ fst r
            = match reply_text bot
                      (markdown (PStr (detected_text (detect_platform url)))
                         (Some (get_quality_keyboard url))) with
              | Some e => inl e
              | None => inr tt
              end
     end.
Proof.
  intros url r stored. subst stored r. split.
  - destruct (strip_decompose (message_text update)) as (a & b & H & Ha & Hb).
    destruct (strip_trimmed (message_text update)) as [Hl Hr].
    exists a, b. subst url. auto.
  - exact (handle_url_session bot utcnow update user_data).
Qed.

(** What a stored selection gives to the download handler. *)
Lemma run_with_pending env update (user_data : gmap string string) fs url platform :
  user_data !! "pending_url" = Some url ->
  user_data !! "platform" = Some platform ->
  url <> "" ->
  let r := run env update user_data fs in
  let t := trace (snd r) in
  (forall o, fst r = inr o -> o <> SessionExpired)
  /\ (records t = []
      \/ exists quality,
           selected_quality (query_data update) = inr quality
           /\ records t
              = [download_data (effective_user_id update) url platform quality])
  /\ (forall ev u opts, In ev t -> call_of ev = ExtractInfo u opts -> u = url).
Proof.
  intros Hpending Hplatform Hurl r t. subst t r.
  run_paths env update user_data fs; try congruence.
  all: rewrite ?Hplatform; cbn [default from_option id].
  all: match goal with H : Some _ = Some _ |- _ => injection H as -> end.
  all: split; [intros o' Ho; congruence|].
  all: split;
    [ first [ left; reflexivity | right; eexists; split; reflexivity ]
    | intros ev u opts Hin Hcall; cbn [In] in Hin;
      repeat match type of Hin with
             | _ \/ _ => destruct Hin as [Hin|Hin]
             end;
      first [ contradiction Hin | subst ev; cbn [call_of] in Hcall; congruence ] ].
Qed.

(** X13: after a message that passes the URL filter has been handled, a
    quality selection never ends at the session-expired exit; the record it
    creates carries the whole stored URL and the platform detected for it, and
    the extraction is called with that URL, whatever URL prefix the callback
    token carries. *)
Theorem selection_after_url bot utcnow env message callback
    (user_data : gmap string string) fs :
  url_filter (message_text message) = true ->
  sync_user (dashboard bot) (active_data utcnow (effective_user message)) = None ->
  let url := strip (message_text message) in
  let stored := context_user_data (snd (serve (handle_url bot utcnow message) user_data)) in
  let r := run env callback stored fs in
  let t := trace (snd r) in
  url <> ""
  /\ (forall o, fst r = inr o -> o <> SessionExpired)
  /\ (records t = []
      \/ exists quality,
           selected_quality (query_data callback) = inr quality
           /\ records t
              = [download_data (effective_user_id callback) url
                   (detect_platform url) quality])
  /\ (forall ev u opts, In ev t -> call_of ev = ExtractInfo u opts -> u = url).
Proof.
  intros Hfilter Hsync url stored r t. subst t r.
  pose proof (filtered_text_not_blank _ Hfilter) as Hurl.
  split; [exact Hurl|].
  pose proof (handle_url_session bot utcnow message user_data) as H.
  cbv zeta in H. rewrite Hsync in H.
  destruct H as (Hpending & Hplatform & _).
  exact (run_with_pending env callback stored fs url (detect_platform url)
           Hpending Hplatform Hurl).
Qed.

Lemma selection_after_url_witness :
  let bot := scenario_bot (Some Scenario.free_user) ∅ in
  let stored :=
    context_user_data (snd (serve (handle_url bot scenario_utcnow scenario_message) ∅)) in
  let r := run (dashboard bot) Scenario.update stored ∅ in
  url_filter (message_text scenario_message) = true
  /\ strip (message_text scenario_message) = Scenario.url
  /\ fst r = inr Completed
  /\ map (fun d => d !! "url") (records (trace (snd r)))
     = [Some (PStr Scenario.url)].
Proof.
  pose proof (selection_after_url
                (scenario_bot (Some Scenario.free_user) ∅) scenario_utcnow
                (dashboard (scenario_bot (Some Scenario.free_user) ∅))
                scenario_message Scenario.update ∅ ∅ eq_refl eq_refl) as H.
  cbv zeta in H. destruct H as (_ & _ & _ & _).
  split; [reflexivity|]. split; [reflexivity|].
  split; vm_compute; reflexivity.
Defined.

(** *** The commands *)

(** X14: [help_command] and [premium_command] answer with the text the
    dashboard holds under their key, and with their built-in text when the
    key is missing; when the settings lookup raises they send nothing. *)
Theorem settings_commands_reply bot update (user_data : gmap string string) :
  let help := serve (help_command bot update) user_data in
  let premium := serve (premium_command bot update) user_data in
  match get_settings (dashboard bot) with
  | inl e =>
      fst help = inl e /\ replies (journal (snd help)) = []
      /\ fst premium = inl e /\ replies (journal (snd premium)) = []
  | inr settings =>
      replies (journal (snd help))
      = [markdown (default (PStr DEFAULT_HELP) (settings !! "help_message")) None]
      /\ replies (journal (snd premium))
         = [markdown (default (PStr DEFAULT_PREMIUM) (settings !! "premium_message"))
              None]
      /\ dashboard_events (journal (snd help)) = [Returned GetSettings]
      /\ dashboard_events (journal (snd premium)) = [Returned GetSettings]
  end.
Proof.
  intros help premium. subst help premium. unfold dict_get.
  destruct (get_settings (dashboard bot)) as [e|settings] eqn:Hsettings.
  - exec_cmd; repeat split; reflexivity.
  - exec_cmd; repeat split; reflexivity.
Qed.

(** X15: [start] first upserts the user, with the user's names as the
    update gives them, an empty last name when the user has none, and the
    time read at this request as [last_active]; it then answers with the
    [welcome_message] setting or the built-in welcome. When the upsert
    raises, the settings are not read and nothing is sent. *)
Theorem start_welcomes_after_upsert bot utcnow update (user_data : gmap string string) :
  let r := serve (start bot utcnow update) user_data in
  let user := effective_user update in
  let data := start_data utcnow user in
  data !! "telegram_id" = Some (PStr (pretty (user_id user)))
  /\ data !! "username" = Some (username user)
  /\ data !! "first_name" = Some (first_name user)
  /\ data !! "last_name"
     = Some (if truthy (last_name user) then last_name user else PStr "")
  /\ data !! "last_active" = Some (PStr utcnow)
  /\ match sync_user (dashboard bot) data with
     | Some e =>
         fst r = inl e
         /\ journal (snd r) = [Dashboard (Raised (SyncUser data) e)]
     | None =>
         match get_settings (dashboard bot) with
         | inl e =>
             fst r = inl e
             /\ dashboard_events (journal (snd r))
                = [Returned (SyncUser data); Raised GetSettings e]
             /\ replies (journal (snd r)) = []
         | inr settings =>
             dashboard_events (journal (snd r))
             = [Returned (SyncUser data); Returned GetSettings]
             /\ replies (journal (snd r))
                = [markdown
                     (default (PStr DEFAULT_WELCOME) (settings !! "welcome_message"))
                     None]
         end
     end.
Proof.
  intros r user data. subst r data user. unfold dict_get.
  split; [reflexivity|]. split; [reflexivity|]. split; [reflexivity|].
  split; [reflexivity|]. split; [reflexivity|].
  exec_cmd; repeat split; reflexivity.
Qed.

(** X16: [stats] answers "No stats yet" when the dashboard has no profile
    for the user, or an empty one. With a profile it shows the two counters,
    a missing or null counter as 0, and "Premium" exactly when [is_premium]
    is true; a counter of data that is not a number raises [TypeError] and
    nothing is sent. *)
Theorem stats_reply bot update (user_data : gmap string string) db_user :
  get_user (dashboard bot) (pretty (user_id (effective_user update))) = inr db_user ->
  let r := serve (stats bot update) user_data in
  match profile db_user with
  | None => replies (journal (snd r)) = [plain (PStr NO_STATS_TEXT)]
  | Some d =>
      let downloads := counter d "total_downloads" in
      let label := if truthy (dict_get d "is_premium" PNone) then "‚≠ê Premium" else "Free" in
      (d !! "total_downloads" = None \/ d !! "total_downloads" = Some PNone ->
       downloads = PInt 0)
      /\ match py_int (counter d "total_data_downloaded") with
         | Some n =>
             replies (journal (snd r))
             = [markdown
                  (PStr (stats_text label downloads (format_gb (dashboard bot) 2 n)))
                  None]
         | None =>
             replies (journal (snd r)) = []
             /\ exists msg, fst r = inl (TypeError msg)
         end
  end.
Proof.
  intros Huser r. subst r.
  destruct (profile db_user) as [d|] eqn:Hprofile.
  - cbv zeta. split.
    + unfold counter, dict_get. intros [-> | ->]; reflexivity.
    + destruct (counter d "total_data_downloaded") as [|b|n|s] eqn:Hdata;
        cbn [py_int]; exec_cmd; try reflexivity;
        (split; [reflexivity|eexists; reflexivity]).
  - exec_cmd; reflexivity.
Qed.

Lemma stats_reply_witness :
  let bot := scenario_bot (Some Scenario.free_user) ∅ in
  let r := serve (stats bot scenario_message) ∅ in
  get_user (dashboard bot) (pretty (user_id (effective_user scenario_message)))
  = inr (Some Scenario.free_user)
  /\ map reply_body (replies (journal (snd r)))
     = [PStr (stats_text "Free" (PInt 3) "0.00")].
Proof.
  pose proof (stats_reply (scenario_bot (Some Scenario.free_user) ∅)
                scenario_message ∅ (Some Scenario.free_user) eq_refl) as H.
  split; [reflexivity|].
  cbv zeta in H.
  change (profile (Some Scenario.free_user)) with (Some Scenario.free_user) in H.
  cbv iota in H. destruct H as [_ H].
  change (py_int (counter Scenario.free_user "total_data_downloaded"))
    with (Some 4096) in H.
  cbv iota in H. rewrite H. vm_compute. reflexivity.
Defined.

(** X17: no command changes the user's stored data, whatever the
    collaborators answer, so a pending selection survives the commands sent
    between a URL and the click on a quality; [broadcast] answers
    administrators only, and never calls the dashboard. *)
Theorem commands_keep_session bot utcnow update (user_data : gmap string string) :
  context_user_data (snd (serve (start bot utcnow update) user_data)) = user_data
  /\ context_user_data (snd (serve (help_command bot update) user_data)) = user_data
  /\ context_user_data (snd (serve (premium_command bot update) user_data)) = user_data
  /\ context_user_data (snd (serve (stats bot update) user_data)) = user_data
  /\ context_user_data (snd (serve (broadcast bot update) user_data)) = user_data
  /\ dashboard_events (journal (snd (serve (broadcast bot update) user_data))) = []
  /\ replies (journal (snd (serve (broadcast bot update) user_data)))
     = if bool_decide (user_id (effective_user update) ∈ ADMIN_IDS bot)
       then [plain (PStr BROADCAST_TEXT)]
       else [].
Proof.
  repeat split; exec_cmd; reflexivity.
Qed.

(** ** The Base44 client *)




(** X19: [sync_user] looks the user up by [telegram_id] and then writes at
    most once. When the lookup finds records it patches the first one, under
    its [id], with the data given, creates nothing, and returns that record as
    it was fetched, not as updated; when it finds none it posts the data and
    returns what the server created. It writes nothing when the lookup fails
    or the first record has no [id], and sends nothing at all when the data
    has no [telegram_id]. *)
Theorem sync_user_upserts self server (user_data : dict) :
  let r := Base44Client.sync_user self server user_data in
  let url := Base44Client.entity_url self "TelegramUser" in
  let hdrs := Base44Client.headers self in
  (writes (snd r) <= 1)%nat
  /\ match user_data !! "telegram_id" with
     | None => r = (inl (KeyError "telegram_id"), [])
     | Some telegram_id =>
         let params := Some (mkdict [("telegram_id", telegram_id)]) in
         let get := Get url hdrs params in
         match on_get server url hdrs params with
         | inl e => r = (inl e, [Broken get e])
         | inr [] =>
             (exists x,
                 snd r = [Answered get; x]
                 /\ request_of x = Post url hdrs user_data)
             /\ fst r = on_post server url hdrs user_data
         | inr (first :: _) =>
             match first !! "id" with
             | None => r = (inl (KeyError "id"), [Answered get])
             | Some id =>
                 let target := Base44Client.record_url self "TelegramUser" id in
                 (exists x,
                     snd r = [Answered get; x]
                     /\ request_of x = Patch target hdrs user_data)
                 /\ fst r
                    = match on_patch server target hdrs user_data with
                      | None => inr first
                      | Some e => inl e
                      end
             end
         end
     end.
Proof.
  intros r url hdrs. subst r url hdrs.
  unfold Base44Client.sync_user, Base44Client.fetch, writes.
  destruct (user_data !! "telegram_id") as [telegram_id|]; [|split; [cbn; lia|reflexivity]].
  cbv zeta.
  destruct (on_get server _ _ _) as [e|[|first rest]]; cbn [fst snd app].
  - split; [cbn; lia|reflexivity].
  - destruct (on_post server _ _ _) as [e|created]; cbn [fst snd app];
      (split; [cbn; lia|]); (split; [eexists; split; reflexivity|reflexivity]).
  - destruct (first !! "id") as [id|]; [|split; [cbn; lia|reflexivity]].
    destruct (on_patch server _ _ _) as [e|]; cbn [fst snd app];
      (split; [cbn; lia|]); (split; [eexists; split; reflexivity|reflexivity]).
Qed.
